(** * Quick Binary Reload: a model of [reload_binary_plugin.py]

    The plugin's only behaviour of interest is [ReloadBinaryHandler.activate]:
    it asks the host (IDA) for two paths, asks the user for confirmation,
    writes a batch script next to the database, spawns it and terminates the
    host.  The model below is a shallow embedding of that method in a small
    state-and-exception monad over an explicit host state (file system,
    console, warning dialogs, spawned processes).

    Paths and messages are strings of 8-bit characters.  A file on disk is
    the list of chunks given to [f.write], in order.  What the host, the
    user and the operating system answer during one activation, including
    the [open], [write] or [Popen] call that raises, is an [Env].
    [os.path.splitext] follows CPython's [genericpath._splitext]. *)

From Stdlib Require Import ZArith String Ascii List Lia.
From stdpp Require Import base option list gmap strings.

Local Open Scope string_scope.
Local Open Scope list_scope.
Local Open Scope Z_scope.

(** * Part I: the model *)

(** ** Strings *)

(** The two characters that cannot be typed inside a literal. *)
Definition dq : string := String (ascii_of_nat 34) EmptyString.
Definition nl : string := String (ascii_of_nat 10) EmptyString.

Module Path.

(** [str.rfind(c)]: the greatest index holding [c], or [-1]. *)
Fixpoint rfind_from (c : ascii) (p : string) (i acc : Z) : Z :=
  match p with
  | EmptyString => acc
  | String a q => rfind_from c q (i + 1) (if Ascii.eqb a c then i else acc)
  end.

Definition rfind (c : ascii) (p : string) : Z := rfind_from c p 0 (-1).

(** [p[i:i+1]], the empty string when [i] is out of range. *)
Definition slice1 (p : string) (i : Z) : string :=
  if i <? 0 then EmptyString else String.substring (Z.to_nat i) 1 p.

(** The [while filenameIndex < dotIndex] loop of [genericpath._splitext]:
    [true] when a character other than the extension separator is met
    (the function then splits at the dot). *)
Fixpoint seek_non_dot (fuel : nat) (p : string) (filenameIndex dotIndex : Z) : bool :=
  match fuel with
  | O => false
  | S fuel' =>
      if filenameIndex <? dotIndex then
        if negb (String.eqb (slice1 p filenameIndex) ".") then true
        else seek_non_dot fuel' p (filenameIndex + 1) dotIndex
      else false
  end.

(** [genericpath._splitext(p, sep, altsep, extsep)] with [extsep = '.']. *)
Definition _splitext (p : string) (sep : ascii) (altsep : option ascii) : string * string :=
  let sepIndex := rfind sep p in
  let sepIndex :=
    match altsep with
    | Some a => Z.max sepIndex (rfind a p)
    | None => sepIndex
    end in
  let dotIndex := rfind "."%char p in
  if (sepIndex <? dotIndex)
     && seek_non_dot (String.length p) p (sepIndex + 1) dotIndex
  then (String.substring 0 (Z.to_nat dotIndex) p,
        String.substring (Z.to_nat dotIndex) (String.length p - Z.to_nat dotIndex)%nat p)
  else (p, EmptyString).

(** [os.path] is [ntpath] when [os.name == 'nt'] and [posixpath] otherwise. *)
Definition splitext (os_name : string) (p : string) : string * string :=
  if String.eqb os_name "nt"
  then _splitext p "\"%char (Some "/"%char)
  else _splitext p "/"%char None.

End Path.

(** ** Host state and environment *)

(** A file is the sequence of chunks handed to [f.write]. *)
Abbreviation file := (list string).

(** One [subprocess.Popen] call. *)
Record Spawn := {
  sp_args : list string;
  sp_shell : bool;
  sp_creationflags : Z;
}.

Record State := {
  fs : gmap string file;       (* the files on disk *)
  console : list string;       (* lines given to [print] *)
  warnings : list string;      (* messages given to [ida_kernwin.warning] *)
  spawned : list Spawn;        (* child processes started so far *)
}.

(** What the host and the operating system answer during one activation.
    A query either raises (left, with the exception's text) or returns. *)
Record Env := {
  get_input_file_path : string + option string;  (* ida_nalt.get_input_file_path() *)
  ask_yn : string + Z;                           (* ida_kernwin.ask_yn(...) *)
  get_path : string + option string;             (* ida_loader.get_path(PATH_TYPE_IDB) *)
  ASKBTN_YES : Z;                                (* ida_kernwin.ASKBTN_YES *)
  sys_executable : string;                       (* sys.executable *)
  os_name : string;                              (* os.name *)
  open_error : option string;                    (* open(batch_path, 'w') raises *)
  write_error : option (nat * string);           (* the n-th f.write (from 0) raises *)
  popen_error : option string;                   (* subprocess.Popen raises *)
}.

(** [subprocess.CREATE_NO_WINDOW]. *)
Definition CREATE_NO_WINDOW : Z := 0x08000000.

(** ** The monad: state, exceptions, and process exit *)

Inductive Res (A : Type) : Type :=
| Val (a : A)          (* normal completion *)
| Raise (e : string)   (* an exception of class [Exception], by its [str] *)
| Halt (code : Z).     (* the process is gone: [qexit] *)
Arguments Val {A} a.
Arguments Raise {A} e.
Arguments Halt {A} code.

Definition M (A : Type) : Type := State -> Res A * State.

#[global] Instance M_ret : MRet M := fun A a st => (Val a, st).
#[global] Instance M_bind : MBind M := fun A B f m st =>
  match m st with
  | (Val a, st') => f a st'
  | (Raise e, st') => (Raise e, st')
  | (Halt c, st') => (Halt c, st')
  end.

Definition raise {A} (e : string) : M A := fun st => (Raise e, st).

(** [try: body  except Exception as e: handler e].  Process exit is not an
    exception and passes through.  Every [Raise] of this model is of class
    [Exception] and is caught here; [KeyboardInterrupt], [SystemExit] and the
    other exceptions outside [Exception], which the clause lets through, are
    not part of the model. *)
Definition try_except {A} (body : M A) (handler : string -> M A) : M A := fun st =>
  match body st with
  | (Raise e, st') => handler e st'
  | r => r
  end.

(** A host query. *)
Definition query {A} (q : string + A) : M A :=
  match q with
  | inl e => raise e
  | inr a => mret a
  end.

(** [print(s)] and [ida_kernwin.warning(s)], as state changes and as actions. *)
Definition log (s : string) (st : State) : State :=
  {| fs := fs st; console := console st ++ [s];
     warnings := warnings st; spawned := spawned st |}.

Definition warn (s : string) (st : State) : State :=
  {| fs := fs st; console := console st;
     warnings := warnings st ++ [s]; spawned := spawned st |}.

Definition print (s : string) : M unit := fun st => (Val tt, log s st).

Definition warning (s : string) : M unit := fun st => (Val tt, warn s st).

Definition set_file (p : string) (c : file) (st : State) : State :=
  {| fs := <[p := c]> (fs st); console := console st;
     warnings := warnings st; spawned := spawned st |}.

Definition os_path_exists (p : string) : M bool := fun st =>
  (Val (bool_decide (is_Some (fs st !! p))), st).

(** [open(p, 'w')]: creates or truncates the file. *)
Definition open_w (env : Env) (p : string) : M string := fun st =>
  match open_error env with
  | Some e => (Raise e, st)
  | None => (Val p, set_file p [] st)
  end.

(** [f.write(s)]: appends one chunk, unless this is the write that fails.
    The chunk is on disk as a whole at the call: the buffering of text
    files, under which a failed flush can cut a chunk, is not modelled. *)
Definition f_write (env : Env) (f : string) (s : string) : M unit := fun st =>
  let written := default [] (fs st !! f) in
  match write_error env with
  | Some (n, e) =>
      if bool_decide (n = length written) then (Raise e, st)
      else (Val tt, set_file f (written ++ [s]) st)
  | None => (Val tt, set_file f (written ++ [s]) st)
  end.

(** [with open(p, 'w') as f: body f].  Closing the file changes nothing in
    this model and does not fail; an exception of the body goes on after
    the close. *)
Definition with_open_w {A} (env : Env) (p : string) (body : string -> M A) : M A :=
  f ← open_w env p; body f.

Definition spawn (sp : Spawn) (st : State) : State :=
  {| fs := fs st; console := console st; warnings := warnings st;
     spawned := spawned st ++ [sp] |}.

Definition Popen (env : Env) (args : list string) (shell : bool) (creationflags : Z) : M unit :=
  fun st =>
  match popen_error env with
  | Some e => (Raise e, st)
  | None =>
      (Val tt, spawn {| sp_args := args; sp_shell := shell;
                        sp_creationflags := creationflags |} st)
  end.

(** [ida_pro.qexit(code)]: the host process ends here. *)
Definition qexit (code : Z) : M unit := fun st => (Halt code, st).

(** [for x in xs: body x] *)
Fixpoint for_each {A} (xs : list A) (body : A -> M unit) : M unit :=
  match xs with
  | [] => mret tt
  | x :: xs' => body x ;; for_each xs' body
  end.

(** Python truthiness of a [str] or [None]. *)
Definition truthy (s : option string) : bool :=
  match s with
  | None => false
  | Some s => negb (String.eqb s EmptyString)
  end.

(** ** The script's lines, as the f-strings build them *)

Definition extensions : list string := [".id0"; ".id1"; ".id2"; ".nam"; ".til"; ".i64"].

Definition echo_off_line : string := "@echo off" +:+ nl.
Definition delay_line : string := "timeout /t 1 /nobreak >nul" +:+ nl.
Definition del_line (file_to_delete : string) : string :=
  "del /F /Q " +:+ dq +:+ file_to_delete +:+ dq +:+ " 2>nul" +:+ nl.
Definition start_line (ida_exe input_path : string) : string :=
  "start " +:+ dq +:+ dq +:+ " " +:+ dq +:+ ida_exe +:+ dq +:+ " -A -c "
    +:+ dq +:+ input_path +:+ dq +:+ nl.
Definition self_del_line (batch_path : string) : string :=
  "del /F /Q " +:+ dq +:+ batch_path +:+ dq +:+ nl.

Definition creationflags (env : Env) : Z :=
  if String.eqb (os_name env) "nt" then CREATE_NO_WINDOW else 0.

(** ** [ReloadBinaryHandler.activate] *)

(** The body of the [with open(batch_path, 'w') as f:] block. *)
Definition write_script (env : Env) (f : string)
    (current_idb_base binary_idb_base ida_exe input_path batch_path : string) : M unit :=
  f_write env f echo_off_line ;;
  f_write env f delay_line ;;
  for_each extensions (fun ext =>
    let file_to_delete := current_idb_base +:+ ext in
    ex ← os_path_exists file_to_delete;
    if (ex : bool) then f_write env f (del_line file_to_delete) else mret tt) ;;
  (if negb (String.eqb current_idb_base binary_idb_base) then
     for_each extensions (fun ext =>
       let file_to_delete := binary_idb_base +:+ ext in
       f_write env f (del_line file_to_delete))
   else mret tt) ;;
  f_write env f (start_line ida_exe input_path) ;;
  f_write env f (self_del_line batch_path).

(** The inner [try] block (lines 71-113) followed by the [return 1] of
    line 124, which only a returning [qexit] would reach. *)
Definition reload (env : Env) (idb_path input_path ida_exe : string) : M Z :=
  let current_idb_base := fst (Path.splitext (os_name env) idb_path) in
  let binary_idb_base := fst (Path.splitext (os_name env) input_path) in
  let batch_path := current_idb_base +:+ "_reload.bat" in
  with_open_w env batch_path (fun f =>
    write_script env f current_idb_base binary_idb_base ida_exe input_path batch_path) ;;
  print ("[Reload] Created reload script: " +:+ batch_path) ;;
  Popen env [batch_path] true (creationflags env) ;;
  print "[Reload] Closing IDA..." ;;
  qexit 0 ;;
  mret 1.

Definition activate (env : Env) : M Z :=
  try_except
    (input_path ← query (get_input_file_path env);
     if negb (truthy input_path) then
       print "[Reload] Error: Cannot determine input file path" ;;
       warning "Cannot determine the input file path!" ;;
       mret 0
     else
       let input_path := default EmptyString input_path in
       ex ← os_path_exists input_path;
       if negb ex then
         print ("[Reload] Error: File not found: " +:+ input_path) ;;
         warning ("File not found: " +:+ input_path) ;;
         mret 0
       else
         print ("[Reload] Reloading binary from: " +:+ input_path) ;;
         result ← query (ask_yn env);
         if negb (result =? ASKBTN_YES env) then
           print "[Reload] Cancelled by user" ;;
           mret 1
         else
           print "[Reload] Auto-reload enabled - no confirmation needed" ;;
           idb_path ← query (get_path env);
           let ida_exe := sys_executable env in
           if truthy idb_path then
             let idb_path := default EmptyString idb_path in
             try_except
               (reload env idb_path input_path ida_exe)
               (fun e =>
                  print ("[Reload] Error creating reload script: " +:+ e) ;;
                  warning ("Failed to create reload script: " +:+ e) ;;
                  mret 0)
           else
             print "[Reload] Could not determine IDB path" ;;
             warning "Could not determine IDB path" ;;
             mret 0)
    (fun e =>
       print ("[Reload] Exception occurred: " +:+ e) ;;
       warning ("Error during reload: " +:+ e) ;;
       mret 0).

(** ** The script as a pure function of what activation sees *)

Definition file_exists (st : State) (p : string) : bool :=
  bool_decide (is_Some (fs st !! p)).

(** The chunks [write_script] hands to [f.write] when no write fails:
    header and delay, one deletion per existing database component, six
    unconditional deletions next to the binary when the stems differ, the
    relaunch, the self-deletion. *)
Definition script_lines (st : State)
    (current_idb_base binary_idb_base ida_exe input_path batch_path : string) : list string :=
  [echo_off_line; delay_line]
  ++ map del_line
       (List.filter (file_exists st)
          (map (fun ext => current_idb_base +:+ ext) extensions))
  ++ (if negb (String.eqb current_idb_base binary_idb_base)
      then map (fun ext => del_line (binary_idb_base +:+ ext)) extensions
      else [])
  ++ [start_line ida_exe input_path; self_del_line batch_path].

(** What a run of writes leaves behind, given the chunks already in the
    file and the chunks the block goes on to write. *)
Definition writes_outcome (env : Env) (f : string) (st0 : State)
    (acc lines : list string) : Res unit * State :=
  match write_error env with
  | Some (n, e) =>
      if bool_decide (length acc <= n < length acc + length lines)%nat
      then (Raise e, set_file f (acc ++ take (n - length acc) lines) st0)
      else (Val tt, set_file f (acc ++ lines) st0)
  | None => (Val tt, set_file f (acc ++ lines) st0)
  end.

(** [m] writes [lines] to [f], whatever is already there, and touches
    nothing else of [st0]. *)
Definition Writes (env : Env) (f : string) (st0 : State)
    (m : M unit) (lines : list string) : Prop :=
  forall acc, m (set_file f acc st0) = writes_outcome env f st0 acc lines.

(** ** The path through script generation *)

(** Activation gets past both path checks, the prompt and the database-path
    query, with input path [input_path] and database path [idb_path]. *)
Definition reaches_generation (env : Env) (st : State) (input_path idb_path : string) : Prop :=
  get_input_file_path env = inr (Some input_path) /\
  input_path <> EmptyString /\
  file_exists st input_path = true /\
  ask_yn env = inr (ASKBTN_YES env) /\
  get_path env = inr (Some idb_path) /\
  idb_path <> EmptyString.

Definition stem (env : Env) (p : string) : string := fst (Path.splitext (os_name env) p).

Definition batch_path_of (env : Env) (idb_path : string) : string :=
  stem env idb_path +:+ "_reload.bat".

(** The script a complete generation writes. *)
Definition full_script (env : Env) (st : State) (input_path idb_path : string) : list string :=
  script_lines st (stem env idb_path) (stem env input_path)
    (sys_executable env) input_path (batch_path_of env idb_path).

(** The write that fails, if one of the script's writes does. *)
Definition write_failure (env : Env) (lines : list string) : option (nat * string) :=
  match write_error env with
  | Some (n, e) => if bool_decide (n < length lines)%nat then Some (n, e) else None
  | None => None
  end.

(** The [except] clause of the inner [try]. *)
Definition script_failed (e : string) (st : State) : State :=
  warn ("Failed to create reload script: " +:+ e)
    (log ("[Reload] Error creating reload script: " +:+ e) st).

Definition batch_spawn (env : Env) (idb_path : string) : Spawn :=
  {| sp_args := [batch_path_of env idb_path]; sp_shell := true;
     sp_creationflags := creationflags env |}.

Definition generation_outcome (env : Env) (st : State) (input_path idb_path : string)
    : Res Z * State :=
  let bp := batch_path_of env idb_path in
  let lines := full_script env st input_path idb_path in
  let st1 := log "[Reload] Auto-reload enabled - no confirmation needed"
               (log ("[Reload] Reloading binary from: " +:+ input_path) st) in
  match open_error env with
  | Some e => (Val 0, script_failed e st1)
  | None =>
      match write_failure env lines with
      | Some (n, e) => (Val 0, script_failed e (set_file bp (take n lines) st1))
      | None =>
          let st2 := log ("[Reload] Created reload script: " +:+ bp)
                       (set_file bp lines st1) in
          match popen_error env with
          | Some e => (Val 0, script_failed e st2)
          | None =>
              (Halt 0, log "[Reload] Closing IDA..." (spawn (batch_spawn env idb_path) st2))
          end
      end
  end.

(** ** Results of one activation *)

Definition outcome (env : Env) (st : State) : Res Z := fst (activate env st).
Definition final (env : Env) (st : State) : State := snd (activate env st).

(** [activate] came back to the host: the process is still there. *)
Definition host_running (r : Res Z) : Prop := exists v, r = Val v.

(** The steps that can fail before the host is told to exit. *)
Inductive preparation_fails (env : Env) (st : State) : Prop :=
| input_path_raises (e : string) :
    get_input_file_path env = inl e -> preparation_fails env st
| input_path_missing (o : option string) :
    get_input_file_path env = inr o -> truthy o = false -> preparation_fails env st
| input_file_absent (p : string) :
    get_input_file_path env = inr (Some p) -> file_exists st p = false ->
    preparation_fails env st
| prompt_raises (e : string) :
    ask_yn env = inl e -> preparation_fails env st
| idb_path_raises (e : string) :
    get_path env = inl e -> preparation_fails env st
| idb_path_missing (o : option string) :
    get_path env = inr o -> truthy o = false -> preparation_fails env st
| open_fails (e : string) :
    open_error env = Some e -> preparation_fails env st
| write_fails (input_path idb_path : string) (n : nat) (e : string) :
    get_input_file_path env = inr (Some input_path) ->
    get_path env = inr (Some idb_path) ->
    write_error env = Some (n, e) ->
    (n < length (full_script env st input_path idb_path))%nat ->
    preparation_fails env st
| launch_fails (e : string) :
    popen_error env = Some e -> preparation_fails env st.

(** ** The statements of the specification, as predicates *)

(** "All or nothing" as claimed: after activation the whole script is on
    disk and has been launched, or there is no script file. *)
Definition script_all_or_nothing (env : Env) (st : State)
    (input_path idb_path : string) : Prop :=
  let bp := batch_path_of env idb_path in
  (fs (final env st) !! bp = Some (full_script env st input_path idb_path)
   /\ In (batch_spawn env idb_path) (spawned (final env st)))
  \/ fs (final env st) !! bp = None.

Definition is_del_line (l : string) : Prop := exists p, l = del_line p.

(** The order as claimed: the delay comes first, then deletions, then the
    relaunch, then the self-deletion. *)
Definition script_in_claimed_order (env : Env) (st : State)
    (input_path idb_path : string) : Prop :=
  let bp := batch_path_of env idb_path in
  exists dels,
    Forall is_del_line dels
    /\ fs (final env st) !! bp
       = Some (delay_line :: dels
               ++ [start_line (sys_executable env) input_path; self_del_line bp]).

(** The deletions as claimed: with distinct stems, one command per
    extension for each stem; with equal stems, exactly one per extension. *)
Definition deletions_as_claimed (env : Env) (st : State)
    (input_path idb_path : string) : Prop :=
  let s := stem env idb_path in
  let t := stem env input_path in
  exists script,
    fs (final env st) !! batch_path_of env idb_path = Some script
    /\ (s <> t -> forall ext, In ext extensions ->
          In (del_line (s +:+ ext)) script /\ In (del_line (t +:+ ext)) script)
    /\ (s = t -> forall ext, In ext extensions ->
          count_occ string_dec script (del_line (s +:+ ext)) = 1%nat).

(** [sub] occurs somewhere in [s]. *)
Definition occurs_in (sub s : string) : Prop :=
  exists pre post, s = pre +:+ sub +:+ post.

(** The same session on a platform with another [os.name]. *)
Definition with_os_name (name : string) (env : Env) : Env := {|
  get_input_file_path := get_input_file_path env;
  ask_yn := ask_yn env;
  get_path := get_path env;
  ASKBTN_YES := ASKBTN_YES env;
  sys_executable := sys_executable env;
  os_name := name;
  open_error := open_error env;
  write_error := write_error env;
  popen_error := popen_error env;
|}.



(** [p] has no character [c]. *)
Fixpoint lacks (c : ascii) (p : string) : bool :=
  match p with
  | EmptyString => true
  | String a q => negb (Ascii.eqb a c) && lacks c q
  end.

(** ** A concrete session, for evaluation *)

Module Sample.

(** A session of the host at [/opt/ida/ida64] with [ASKBTN_YES = 1]. *)
Definition session (input : string + option string) (answer : string + Z)
    (idb : string + option string) (os : string)
    (open_err : option string) (write_err : option (nat * string))
    (popen_err : option string) : Env := {|
  get_input_file_path := input;
  ask_yn := answer;
  get_path := idb;
  ASKBTN_YES := 1;
  sys_executable := "/opt/ida/ida64";
  os_name := os;
  open_error := open_err;
  write_error := write_err;
  popen_error := popen_err;
|}.

Definition bin : string := "/tmp/sample.bin".
Definition idb : string := "/tmp/sample.i64".

(** The user confirms and nothing fails. *)
Definition env : Env :=
  session (inr (Some bin)) (inr 1) (inr (Some idb)) "posix" None None None.

(** The same on Windows. *)
Definition env_nt : Env :=
  session (inr (Some bin)) (inr 1) (inr (Some idb)) "nt" None None None.

(** The database lives in another directory than the binary. *)
Definition env_elsewhere : Env :=
  session (inr (Some bin)) (inr 1) (inr (Some "/work/sample.i64")) "posix"
    None None None.

(** The host has no input path. *)
Definition env_no_input : Env :=
  session (inr None) (inr 1) (inr (Some idb)) "posix" None None None.

(** The input path names a file that is not there. *)
Definition env_missing : Env :=
  session (inr (Some "/tmp/gone.bin")) (inr 1) (inr (Some idb)) "posix"
    None None None.

(** The user answers No. *)
Definition env_declined : Env :=
  session (inr (Some bin)) (inr 0) (inr (Some idb)) "posix" None None None.

(** The database has no path yet. *)
Definition env_no_idb : Env :=
  session (inr (Some bin)) (inr 1) (inr None) "posix" None None None.

(** The fourth write of the script fails. *)
Definition env_disk_full : Env :=
  session (inr (Some bin)) (inr 1) (inr (Some idb)) "posix"
    None (Some (3%nat, "No space left on device")) None.

(** The files on disk: the binary and its database, nothing else. *)
Definition st : State := {|
  fs := {[ bin := ["ELF"]; idb := ["IDA"]; "/work/sample.i64" := ["IDA"] ]};
  console := [];
  warnings := [];
  spawned := [];
|}.

End Sample.

(** ** Further vocabulary for [activate] *)

(** The prompt is reached and the answer is not [ASKBTN_YES]. *)
Definition declined (env : Env) (st : State) : Prop :=
  exists input_path answer,
    get_input_file_path env = inr (Some input_path)
    /\ input_path <> EmptyString
    /\ file_exists st input_path = true
    /\ ask_yn env = inr answer
    /\ answer <> ASKBTN_YES env.

(** Nothing goes wrong from the opening of the script to its launch. *)
Definition generation_succeeds (env : Env) (st : State)
    (input_path idb_path : string) : Prop :=
  open_error env = None
  /\ write_failure env (full_script env st input_path idb_path) = None
  /\ popen_error env = None.

(** The host query that activation reaches and that raises [e]. *)
Inductive query_raises (env : Env) (st : State) (e : string) : Prop :=
| raises_at_input_path :
    get_input_file_path env = inl e -> query_raises env st e
| raises_at_prompt (input_path : string) :
    get_input_file_path env = inr (Some input_path) ->
    input_path <> EmptyString ->
    file_exists st input_path = true ->
    ask_yn env = inl e -> query_raises env st e
| raises_at_idb_path (input_path : string) :
    get_input_file_path env = inr (Some input_path) ->
    input_path <> EmptyString ->
    file_exists st input_path = true ->
    ask_yn env = inr (ASKBTN_YES env) ->
    get_path env = inl e -> query_raises env st e.

(** The first exception between the opening of the script and its launch. *)
Definition generation_error (env : Env) (lines : list string) : option string :=
  match open_error env with
  | Some e => Some e
  | None =>
      match write_failure env lines with
      | Some (_, e) => Some e
      | None => popen_error env
      end
  end.

(** The lines a script may hold, by what they do. *)
Definition expected_line (st : State) (s t exe inp bp : string) (l : string) : Prop :=
  l = echo_off_line
  \/ l = delay_line
  \/ (exists ext, In ext extensions /\ l = del_line (s +:+ ext)
                  /\ file_exists st (s +:+ ext) = true)
  \/ (exists ext, In ext extensions /\ l = del_line (t +:+ ext) /\ s <> t)
  \/ l = start_line exe inp
  \/ l = self_del_line bp.

(** ** [ReloadBinaryPlugin]: registration of the action *)

Module Plugin.

(** The object an action is handled by: an instance of this plugin's
    [ReloadBinaryHandler], or a handler that belongs to someone else. *)
Inductive Handler : Type :=
| ReloadBinaryHandler
| ForeignHandler (owner : string).

(** [ida_kernwin.action_desc_t(name, label, handler, shortcut, tooltip, icon)]. *)
Record action_desc_t := {
  name : string;
  label : string;
  handler : Handler;
  shortcut : string;
  tooltip : string;
  icon : Z;
}.

(** What [init] tells the host. *)
Inductive init_result : Type := PLUGIN_KEEP | PLUGIN_SKIP.

(** The host seen from the plugin: its action registry, by action name, and
    the output console. *)
Record Host := {
  actions : gmap string action_desc_t;
  output : list string;
}.

(** [ida_kernwin.register_action]: fails when the name is taken. *)
Definition register_action (desc : action_desc_t) (h : Host) : bool * Host :=
  match actions h !! name desc with
  | Some _ => (false, h)
  | None => (true, {| actions := <[name desc := desc]> (actions h);
                      output := output h |})
  end.

(** [ida_kernwin.unregister_action]: tells whether the name was there. *)
Definition unregister_action (n : string) (h : Host) : bool * Host :=
  (bool_decide (is_Some (actions h !! n)),
   {| actions := delete n (actions h); output := output h |}).

Definition echo (s : string) (h : Host) : Host :=
  {| actions := actions h; output := output h ++ [s] |}.

(** [ReloadBinaryPlugin.init] *)
Definition init (h : Host) : init_result * Host :=
  let action_desc := {|
    name := "reload_binary:reload";
    label := "Reload Binary";
    handler := ReloadBinaryHandler;
    shortcut := "Ctrl+Shift+R";
    tooltip := "Reload the current binary file";
    icon := -1;
  |} in
  let (registered, h) := register_action action_desc h in
  if registered then
    (PLUGIN_KEEP,
     echo "[Reload Plugin] Use Ctrl+Shift+R to reload binary"
       (echo "[Reload Plugin] Registered successfully!" h))
  else
    (PLUGIN_SKIP, echo "[Reload Plugin] Failed to register action" h).

(** [ReloadBinaryPlugin.run]: [pass]. *)
Definition run (arg : Z) (h : Host) : Host := h.

(** [ReloadBinaryPlugin.term] *)
Definition term (h : Host) : Host :=
  let (_, h) := unregister_action "reload_binary:reload" h in
  echo "[Reload Plugin] Unregistered" h.

End Plugin.

(** ** Further sessions *)

Module Scenario.

(** The host raises when asked for the database path. *)
Definition env_idb_raises : Env :=
  Sample.session (inr (Some Sample.bin)) (inr 1) (inl "database is closed")
    "posix" None None None.

(** The launch of the script fails. *)
Definition env_no_shell : Env :=
  Sample.session (inr (Some Sample.bin)) (inr 1) (inr (Some Sample.idb))
    "posix" None None (Some "cannot start shell").

(** The analysed file is itself named like a database component. *)
Definition env_nam_input : Env :=
  Sample.session (inr (Some "/fw/image.nam")) (inr 1)
    (inr (Some "/work/image.i64")) "posix" None None None.

Definition st_nam_input : State := {|
  fs := {[ "/fw/image.nam" := ["FW"]; "/work/image.i64" := ["IDA"] ]};
  console := [];
  warnings := [];
  spawned := [];
|}.



(** A host with one foreign action registered. *)
Definition host : Plugin.Host := {|
  Plugin.actions :=
    {[ "other:action" :=
         {| Plugin.name := "other:action"; Plugin.label := "Other";
            Plugin.handler := Plugin.ForeignHandler "other";
            Plugin.shortcut := "F9"; Plugin.tooltip := "Other";
            Plugin.icon := 0 |} ]};
  Plugin.output := [];
|}.

End Scenario.

(** * Part II: the proofs *)

(** ** Tactics *)

(** Unfolds the monad along the early returns of [activate]. *)
Ltac run_activate :=
  unfold outcome, final, activate, try_except, query, raise, mbind, M_bind,
    mret, M_ret, os_path_exists, print, warning;
  cbn [fst snd].

(** Tactic for the hypotheses of the sample sessions. *)
Ltac sample_reaches :=
  repeat split; first [discriminate | vm_compute; reflexivity].

(** ** Writing to the script file *)

Section Writing.

Variable env : Env.
Variable f : string.
Variable st0 : State.

Lemma set_file_twice (a b : list string) :
  set_file f a (set_file f b st0) = set_file f a st0.
Proof. unfold set_file; simpl. by rewrite insert_insert_eq. Qed.

Lemma file_exists_set_file (acc : list string) (p : string) :
  file_exists (set_file f acc st0) p = file_exists (set_file f [] st0) p.
Proof.
  unfold file_exists, set_file; simpl.
  destruct (decide (f = p)) as [->|Hne].
  - rewrite !lookup_insert_eq. by rewrite !bool_decide_eq_true_2.
  - by rewrite !lookup_insert_ne.
Qed.

Lemma Writes_ret : Writes env f st0 (mret tt) [].
Proof.
  intros acc. unfold writes_outcome. rewrite app_nil_r.
  destruct (write_error env) as [[n e]|]; [|done].
  rewrite bool_decide_eq_false_2; [done|simpl; lia].
Qed.

Lemma Writes_f_write (s : string) : Writes env f st0 (f_write env f s) [s].
Proof.
  intros acc. unfold f_write, writes_outcome. simpl fs.
  rewrite lookup_insert_eq. simpl default.
  destruct (write_error env) as [[n e]|]; [|by rewrite set_file_twice].
  destruct (decide (n = length acc)) as [->|Hne].
  - rewrite bool_decide_eq_true_2 by done.
    rewrite bool_decide_eq_true_2 by (simpl; lia).
    by rewrite Nat.sub_diag, take_0, app_nil_r.
  - rewrite bool_decide_eq_false_2 by done.
    rewrite bool_decide_eq_false_2 by (simpl; lia).
    by rewrite set_file_twice.
Qed.

Lemma Writes_bind (m1 m2 : M unit) (l1 l2 : list string) :
  Writes env f st0 m1 l1 -> Writes env f st0 m2 l2 ->
  Writes env f st0 (m1 ;; m2) (l1 ++ l2).
Proof.
  intros H1 H2 acc. unfold mbind, M_bind. rewrite H1.
  specialize (H2 (acc ++ l1)). unfold writes_outcome in *.
  destruct (write_error env) as [[n e]|].
  - rewrite length_app in H2. rewrite length_app.
    destruct (decide (length acc <= n < length acc + length l1)%nat) as [Hin|Hout].
    + rewrite bool_decide_eq_true_2 by done.
      rewrite bool_decide_eq_true_2 by lia.
      by rewrite take_app_le by lia.
    + rewrite bool_decide_eq_false_2 by done. rewrite H2.
      destruct (decide (length acc + length l1 <= n
                        < length acc + length l1 + length l2)%nat) as [Hin|Hout'].
      * rewrite !bool_decide_eq_true_2 by lia.
        rewrite take_app_ge by lia.
        rewrite <- app_assoc.
        by replace (n - length acc - length l1)%nat
          with (n - (length acc + length l1))%nat by lia.
      * rewrite !bool_decide_eq_false_2 by lia. by rewrite app_assoc.
  - rewrite H2. by rewrite app_assoc.
Qed.

(** The guarded write of the first loop. *)
Lemma Writes_if_exists (p s : string) :
  Writes env f st0
    (ex ← os_path_exists p; if (ex : bool) then f_write env f s else mret tt)
    (if file_exists (set_file f [] st0) p then [s] else []).
Proof.
  intros acc. unfold mbind, M_bind, os_path_exists.
  change (bool_decide (is_Some (fs (set_file f acc st0) !! p)))
    with (file_exists (set_file f acc st0) p).
  rewrite file_exists_set_file.
  destruct (file_exists (set_file f [] st0) p).
  - apply Writes_f_write.
  - apply Writes_ret.
Qed.

Lemma Writes_for_each {A} (xs : list A) (body : A -> M unit) (out : A -> list string) :
  (forall x, Writes env f st0 (body x) (out x)) ->
  Writes env f st0 (for_each xs body) (concat (map out xs)).
Proof.
  intros Hbody. induction xs as [|x xs IH]; simpl.
  - apply Writes_ret.
  - apply Writes_bind; [apply Hbody | apply IH].
Qed.

End Writing.

(** ** String facts used to tell script lines apart *)

Lemma string_app_length (a b : string) :
  String.length (a +:+ b) = (String.length a + String.length b)%nat.
Proof. induction a as [|c a IH]; simpl; [done|]. by rewrite IH. Qed.

Lemma string_app_inv_len (a b x y : string) :
  String.length a = String.length b -> a +:+ x = b +:+ y -> a = b /\ x = y.
Proof.
  revert b. induction a as [|c a IH]; intros [|d b] Hlen Heq;
    simpl in *; try discriminate; [done|].
  injection Heq as -> Heq. injection Hlen as Hlen.
  destruct (IH b Hlen Heq) as [-> ->]. done.
Qed.

Lemma string_app_cancel_r (a b x : string) : a +:+ x = b +:+ x -> a = b.
Proof.
  intros Heq. assert (Hlen : String.length a = String.length b).
  { apply (f_equal String.length) in Heq. rewrite !string_app_length in Heq. lia. }
  by destruct (string_app_inv_len a b x x Hlen Heq).
Qed.

Lemma del_line_inj (p q : string) : del_line p = del_line q -> p = q.
Proof.
  unfold del_line. intros Heq.
  apply (inj (String.app _)) in Heq. apply (inj (String.app _)) in Heq.
  by apply string_app_cancel_r in Heq.
Qed.

Lemma extension_length (ext : string) :
  In ext extensions -> String.length ext = 4%nat.
Proof. unfold extensions; simpl. intros H. by repeat destruct H as [<-|H]. Qed.

Lemma stem_ext_inj (s t e1 e2 : string) :
  In e1 extensions -> In e2 extensions -> s +:+ e1 = t +:+ e2 -> s = t /\ e1 = e2.
Proof.
  intros H1 H2 Heq. apply string_app_inv_len; [|done].
  apply (f_equal String.length) in Heq. rewrite !string_app_length in Heq.
  rewrite (extension_length _ H1), (extension_length _ H2) in Heq. lia.
Qed.

Lemma stem_ext_not_batch (s ext : string) :
  In ext extensions -> s +:+ ext <> s +:+ "_reload.bat".
Proof.
  intros H Heq. apply (inj (String.app _)) in Heq. subst ext.
  unfold extensions in H; simpl in H. by repeat destruct H as [H|H].
Qed.

Lemma extensions_NoDup : List.NoDup extensions.
Proof.
  unfold extensions.
  repeat (apply List.NoDup_cons; [simpl; intuition discriminate|]).
  apply List.NoDup_nil.
Qed.

Lemma string_app_assoc (a b c : string) : (a +:+ b) +:+ c = a +:+ (b +:+ c).
Proof.
  induction a as [|x a IH]; [done|].
  change (String x ((a +:+ b) +:+ c) = String x (a +:+ b +:+ c)). by f_equal.
Qed.

Lemma del_line_not_echo_off (p : string) : del_line p <> echo_off_line.
Proof. discriminate. Qed.

Lemma del_line_not_delay (p : string) : del_line p <> delay_line.
Proof. discriminate. Qed.

Lemma del_line_not_start (p exe inp : string) : del_line p <> start_line exe inp.
Proof. discriminate. Qed.

Lemma del_line_not_self_del (s ext : string) :
  In ext extensions -> del_line (s +:+ ext) <> self_del_line (s +:+ "_reload.bat").
Proof.
  intros Hext Heq. unfold del_line, self_del_line in Heq.
  apply (inj (String.app _)) in Heq. apply (inj (String.app _)) in Heq.
  rewrite !string_app_assoc in Heq. apply (inj (String.app _)) in Heq.
  unfold extensions in Hext; simpl in Hext.
  repeat destruct Hext as [<-|Hext]; try discriminate. done.
Qed.

(** ** What [write_script] and [reload] do *)

Lemma file_exists_log (s : string) (st : State) (p : string) :
  file_exists (log s st) p = file_exists st p.
Proof. done. Qed.

Lemma file_exists_set_file_ne (f : string) (c : list string) (st : State) (p : string) :
  f <> p -> file_exists (set_file f c st) p = file_exists st p.
Proof. intros Hne. unfold file_exists, set_file; simpl. by rewrite lookup_insert_ne. Qed.

Lemma script_lines_ext (st st' : State) (s t exe inp bp : string) :
  (forall ext, In ext extensions ->
     file_exists st (s +:+ ext) = file_exists st' (s +:+ ext)) ->
  script_lines st s t exe inp bp = script_lines st' s t exe inp bp.
Proof.
  intros Hsame. unfold script_lines. do 3 f_equal.
  apply List.filter_ext_in. intros p Hp.
  apply in_map_iff in Hp as (ext & <- & Hext). by apply Hsame.
Qed.

Lemma concat_map_guard {A} (h : A -> string) (g : string -> string)
    (P : string -> bool) (xs : list A) :
  concat (map (fun x => if P (h x) then [g (h x)] else []) xs)
  = map g (List.filter P (map h xs)).
Proof.
  induction xs as [|x xs IH]; simpl; [done|].
  destruct (P (h x)); simpl; by rewrite IH.
Qed.

Lemma concat_map_single {A} (g : A -> string) (xs : list A) :
  concat (map (fun x => [g x]) xs) = map g xs.
Proof. induction xs as [|x xs IH]; simpl; [done|]. by rewrite IH. Qed.

Lemma write_script_Writes (env : Env) (st0 : State) (s t exe inp : string) :
  let bp := s +:+ "_reload.bat" in
  Writes env bp st0 (write_script env bp s t exe inp bp)
    (script_lines st0 s t exe inp bp).
Proof.
  intros bp. unfold write_script, script_lines.
  change [echo_off_line; delay_line] with ([echo_off_line] ++ [delay_line]).
  rewrite <- app_assoc.
  apply Writes_bind; [apply Writes_f_write|].
  apply Writes_bind; [apply Writes_f_write|].
  apply Writes_bind.
  { rewrite (List.filter_ext_in (file_exists st0)
               (file_exists (set_file bp [] st0))).
    - rewrite <- concat_map_guard. apply Writes_for_each. intros ext. apply Writes_if_exists.
    - intros p Hp. apply in_map_iff in Hp as (ext & <- & Hext).
      symmetry. apply file_exists_set_file_ne.
      intros Heq. by apply (stem_ext_not_batch s ext). }
  apply Writes_bind.
  { destruct (negb (String.eqb s t)).
    - rewrite <- concat_map_single. apply Writes_for_each.
      intros ext. apply Writes_f_write.
    - apply Writes_ret. }
  change [start_line exe inp; self_del_line bp]
    with ([start_line exe inp] ++ [self_del_line bp]).
  apply Writes_bind; apply Writes_f_write.
Qed.

(** ** Activation as far as script generation *)

Lemma string_eqb_empty_false (s : string) :
  s <> EmptyString -> String.eqb s EmptyString = false.
Proof. intros H. by apply String.eqb_neq. Qed.

Lemma writes_outcome_from_empty (env : Env) (f : string) (st0 : State) (lines : list string) :
  writes_outcome env f st0 [] lines =
  match write_failure env lines with
  | Some (n, e) => (Raise e, set_file f (take n lines) st0)
  | None => (Val tt, set_file f lines st0)
  end.
Proof.
  unfold writes_outcome, write_failure.
  destruct (write_error env) as [[n e]|]; [|done]. simpl.
  destruct (decide (n < length lines)%nat).
  - rewrite !bool_decide_eq_true_2 by lia. by rewrite Nat.sub_0_r.
  - by rewrite !bool_decide_eq_false_2 by lia.
Qed.

Lemma activate_generation (env : Env) (st : State) (input_path idb_path : string) :
  reaches_generation env st input_path idb_path ->
  activate env st = generation_outcome env st input_path idb_path.
Proof.
  intros (Hin & Hne & Hex & Hask & Hidb & Hidbne).
  unfold activate, generation_outcome.
  unfold try_except at 1. unfold mbind at 1, M_bind at 1.
  rewrite Hin. cbn [query mret M_ret truthy from_option id].
  rewrite (string_eqb_empty_false _ Hne). cbn [negb].
  unfold mbind at 1, M_bind at 1, os_path_exists at 1.
  fold (file_exists st input_path). rewrite Hex. cbn [negb].
  unfold mbind at 1, M_bind at 1, print at 1.
  unfold mbind at 1, M_bind at 1. rewrite Hask. cbn [query mret M_ret].
  rewrite Z.eqb_refl. cbn [negb].
  unfold mbind at 1, M_bind at 1, print at 1.
  unfold mbind at 1, M_bind at 1. rewrite Hidb. cbn [query mret M_ret truthy from_option id].
  rewrite (string_eqb_empty_false _ Hidbne). cbn [negb].
  set (st1 := log _ (log _ st)).
  unfold try_except, reload, with_open_w, open_w.
  fold (stem env idb_path) (stem env input_path) (batch_path_of env idb_path).
  unfold mbind at 1, M_bind at 1. unfold mbind at 1, M_bind at 1.
  destruct (open_error env) as [e|]; [done|].
  pose proof (write_script_Writes env st1 (stem env idb_path) (stem env input_path)
                (sys_executable env) input_path []) as HW.
  simpl in HW. fold (batch_path_of env idb_path) in HW.
  rewrite HW, writes_outcome_from_empty.
  rewrite (script_lines_ext st1 st) by done.
  fold (full_script env st input_path idb_path).
  destruct (write_failure env _) as [[n e]|]; [done|].
  unfold mbind, M_bind, print, Popen.
  destruct (popen_error env) as [e|]; done.
Qed.

Lemma activate_early (env : Env) (st : State) :
  (exists input_path idb_path, reaches_generation env st input_path idb_path)
  \/ (host_running (outcome env st)
      /\ fs (final env st) = fs st
      /\ spawned (final env st) = spawned st).
Proof.
  destruct (get_input_file_path env) as [e|[input_path|]] eqn:Hin.
  - right. run_activate. rewrite Hin. unfold host_running. simpl. eauto.
  - destruct (String.eqb input_path EmptyString) eqn:Hne.
    { right. run_activate. rewrite Hin; simpl. rewrite Hne.
      unfold host_running. simpl. eauto. }
    destruct (file_exists st input_path) eqn:Hex.
    2:{ right. run_activate. rewrite Hin; simpl. rewrite Hne; simpl.
        fold (file_exists st input_path). rewrite Hex.
        unfold host_running. simpl. eauto. }
    destruct (ask_yn env) as [e|answer] eqn:Hask.
    { right. run_activate. rewrite Hin; simpl. rewrite Hne; simpl.
      fold (file_exists st input_path). rewrite Hex; simpl. rewrite Hask.
      unfold host_running. simpl. eauto. }
    destruct (Z.eqb_spec answer (ASKBTN_YES env)) as [->|Hanswer].
    2:{ right. run_activate. rewrite Hin; simpl. rewrite Hne; simpl.
        fold (file_exists st input_path). rewrite Hex; simpl. rewrite Hask; simpl.
        apply Z.eqb_neq in Hanswer. rewrite Hanswer.
        unfold host_running. simpl. eauto. }
    destruct (get_path env) as [e|[idb_path|]] eqn:Hidb.
    + right. run_activate. rewrite Hin; simpl. rewrite Hne; simpl.
      fold (file_exists st input_path). rewrite Hex; simpl. rewrite Hask; simpl.
      rewrite Z.eqb_refl; simpl. rewrite Hidb.
      unfold host_running. simpl. eauto.
    + destruct (String.eqb idb_path EmptyString) eqn:Hidbne.
      * right. run_activate. rewrite Hin; simpl. rewrite Hne; simpl.
        fold (file_exists st input_path). rewrite Hex; simpl. rewrite Hask; simpl.
        rewrite Z.eqb_refl; simpl. rewrite Hidb; simpl. rewrite Hidbne.
        unfold host_running. simpl. eauto.
      * left. exists input_path, idb_path.
        apply String.eqb_neq in Hne, Hidbne. by repeat split.
    + right. run_activate. rewrite Hin; simpl. rewrite Hne; simpl.
      fold (file_exists st input_path). rewrite Hex; simpl. rewrite Hask; simpl.
      rewrite Z.eqb_refl; simpl. rewrite Hidb.
      unfold host_running. simpl. eauto.
  - right. run_activate. rewrite Hin. unfold host_running. simpl. eauto.
Qed.

(** ** The checks before the prompt *)

(** C7: when the host supplies no input path, or an empty one, [activate]
    returns 0 to the host after showing the warning "Cannot determine the
    input file path!"; no file is touched and no process is started. *)
Theorem activate_without_input_path (env : Env) (st : State) (o : option string) :
  get_input_file_path env = inr o ->
  truthy o = false ->
  outcome env st = Val 0
  /\ fs (final env st) = fs st
  /\ spawned (final env st) = spawned st
  /\ warnings (final env st) = warnings st ++ ["Cannot determine the input file path!"]
  /\ console (final env st)
     = console st ++ ["[Reload] Error: Cannot determine input file path"].
Proof.
  intros Hin Hfalsy. run_activate. rewrite Hin. cbv beta iota.
  rewrite Hfalsy. done.
Qed.

Lemma activate_without_input_path_witness :
  outcome Sample.env_no_input Sample.st = Val 0
  /\ fs (final Sample.env_no_input Sample.st) = fs Sample.st
  /\ spawned (final Sample.env_no_input Sample.st) = spawned Sample.st
  /\ warnings (final Sample.env_no_input Sample.st)
     = warnings Sample.st ++ ["Cannot determine the input file path!"]
  /\ console (final Sample.env_no_input Sample.st)
     = console Sample.st ++ ["[Reload] Error: Cannot determine input file path"].
Proof.
  apply (activate_without_input_path Sample.env_no_input Sample.st None);
    reflexivity.
Defined.

(** C8: when the input path is non-empty but names no existing file,
    [activate] returns 0 to the host after showing the warning
    "File not found: <path>"; no file is created and no process is started. *)
Theorem activate_input_file_missing (env : Env) (st : State) (input_path : string) :
  get_input_file_path env = inr (Some input_path) ->
  input_path <> EmptyString ->
  file_exists st input_path = false ->
  outcome env st = Val 0
  /\ fs (final env st) = fs st
  /\ spawned (final env st) = spawned st
  /\ warnings (final env st) = warnings st ++ ["File not found: " +:+ input_path]
  /\ console (final env st)
     = console st ++ ["[Reload] Error: File not found: " +:+ input_path].
Proof.
  intros Hin Hne Hex. run_activate. rewrite Hin. cbn [truthy from_option id].
  rewrite (string_eqb_empty_false _ Hne). cbn [negb].
  fold (file_exists st input_path). rewrite Hex. done.
Qed.

Lemma activate_input_file_missing_witness :
  outcome Sample.env_missing Sample.st = Val 0
  /\ fs (final Sample.env_missing Sample.st) = fs Sample.st
  /\ spawned (final Sample.env_missing Sample.st) = spawned Sample.st
  /\ warnings (final Sample.env_missing Sample.st)
     = warnings Sample.st ++ ["File not found: " +:+ "/tmp/gone.bin"]
  /\ console (final Sample.env_missing Sample.st)
     = console Sample.st ++ ["[Reload] Error: File not found: " +:+ "/tmp/gone.bin"].
Proof.
  apply (activate_input_file_missing Sample.env_missing Sample.st "/tmp/gone.bin").
  - reflexivity.
  - discriminate.
  - vm_compute. reflexivity.
Defined.

(** ** The prompt *)

(** C4: when the prompt is reached and the answer is anything but
    [ASKBTN_YES], [activate] prints "[Reload] Cancelled by user" and returns
    1; no file is written, no process is started, no warning is shown, and
    the host keeps running. *)
Theorem activate_declined (env : Env) (st : State) (input_path : string) (answer : Z) :
  get_input_file_path env = inr (Some input_path) ->
  input_path <> EmptyString ->
  file_exists st input_path = true ->
  ask_yn env = inr answer ->
  answer <> ASKBTN_YES env ->
  outcome env st = Val 1
  /\ fs (final env st) = fs st
  /\ spawned (final env st) = spawned st
  /\ warnings (final env st) = warnings st
  /\ console (final env st)
     = console st ++ ["[Reload] Reloading binary from: " +:+ input_path;
                      "[Reload] Cancelled by user"].
Proof.
  intros Hin Hne Hex Hask Hno. run_activate. rewrite Hin.
  cbn [truthy from_option id].
  rewrite (string_eqb_empty_false _ Hne). cbn [negb].
  fold (file_exists st input_path). rewrite Hex. cbn [negb log].
  rewrite Hask. apply Z.eqb_neq in Hno. rewrite Hno. cbn.
  by rewrite <- app_assoc.
Qed.

Lemma activate_declined_witness :
  outcome Sample.env_declined Sample.st = Val 1
  /\ fs (final Sample.env_declined Sample.st) = fs Sample.st
  /\ spawned (final Sample.env_declined Sample.st) = spawned Sample.st
  /\ warnings (final Sample.env_declined Sample.st) = warnings Sample.st
  /\ console (final Sample.env_declined Sample.st)
     = console Sample.st ++ ["[Reload] Reloading binary from: " +:+ Sample.bin;
                             "[Reload] Cancelled by user"].
Proof.
  apply (activate_declined Sample.env_declined Sample.st Sample.bin 0).
  - reflexivity.
  - discriminate.
  - vm_compute. reflexivity.
  - reflexivity.
  - discriminate.
Defined.

(** ** The database path *)

(** C9: when the user confirms and the host supplies no database path, or
    an empty one, [activate] returns 0 to the host after showing the warning
    "Could not determine IDB path"; no file is written, no process is
    started, and the host is not terminated. *)
Theorem activate_without_idb_path (env : Env) (st : State)
    (input_path : string) (o : option string) :
  get_input_file_path env = inr (Some input_path) ->
  input_path <> EmptyString ->
  file_exists st input_path = true ->
  ask_yn env = inr (ASKBTN_YES env) ->
  get_path env = inr o ->
  truthy o = false ->
  outcome env st = Val 0
  /\ fs (final env st) = fs st
  /\ spawned (final env st) = spawned st
  /\ warnings (final env st) = warnings st ++ ["Could not determine IDB path"].
Proof.
  intros Hin Hne Hex Hask Hidb Hfalsy. run_activate. rewrite Hin.
  cbn [truthy from_option id].
  rewrite (string_eqb_empty_false _ Hne). cbn [negb].
  fold (file_exists st input_path). rewrite Hex. cbn [negb log].
  rewrite Hask, Z.eqb_refl. cbn [negb]. rewrite Hidb, Hfalsy. done.
Qed.

Lemma activate_without_idb_path_witness :
  outcome Sample.env_no_idb Sample.st = Val 0
  /\ fs (final Sample.env_no_idb Sample.st) = fs Sample.st
  /\ spawned (final Sample.env_no_idb Sample.st) = spawned Sample.st
  /\ warnings (final Sample.env_no_idb Sample.st)
     = warnings Sample.st ++ ["Could not determine IDB path"].
Proof.
  apply (activate_without_idb_path Sample.env_no_idb Sample.st Sample.bin None).
  - reflexivity.
  - discriminate.
  - vm_compute. reflexivity.
  - reflexivity.
  - reflexivity.
  - reflexivity.
Defined.

(** ** Script generation, launch and exit *)

(** What activation leaves behind once it has reached script generation,
    by the first thing that goes wrong. *)
Lemma generation_effects (env : Env) (st : State) (input_path idb_path : string) :
  reaches_generation env st input_path idb_path ->
  let bp := batch_path_of env idb_path in
  let lines := full_script env st input_path idb_path in
  match open_error env with
  | Some _ =>
      outcome env st = Val 0
      /\ fs (final env st) = fs st /\ spawned (final env st) = spawned st
  | None =>
      match write_failure env lines with
      | Some (n, _) =>
          outcome env st = Val 0
          /\ fs (final env st) = <[bp := take n lines]> (fs st)
          /\ spawned (final env st) = spawned st
      | None =>
          fs (final env st) = <[bp := lines]> (fs st)
          /\ match popen_error env with
             | Some _ =>
                 outcome env st = Val 0 /\ spawned (final env st) = spawned st
             | None =>
                 outcome env st = Halt 0
                 /\ spawned (final env st) = spawned st ++ [batch_spawn env idb_path]
             end
      end
  end.
Proof.
  intros Hreach bp lines. unfold outcome, final.
  rewrite (activate_generation env st input_path idb_path Hreach).
  unfold generation_outcome. fold bp lines.
  destruct (open_error env) as [e|]; [done|].
  destruct (write_failure env lines) as [[n e]|]; [done|].
  destruct (popen_error env) as [e|]; done.
Qed.

Lemma truthy_Some (s : string) : s <> EmptyString -> truthy (Some s) = true.
Proof. intros H. simpl. by rewrite (string_eqb_empty_false _ H). Qed.

(** C1: when any step before the exit fails (a host query raises, the
    input path is missing or names no file, the database path is missing,
    the script cannot be opened or written, or the launch fails),
    [activate] comes back to the host instead of terminating it, and no
    process has been started. *)
Theorem failure_never_terminates (env : Env) (st : State) :
  preparation_fails env st ->
  host_running (outcome env st) /\ spawned (final env st) = spawned st.
Proof.
  intros Hfail.
  destruct (activate_early env st) as [(inp & idb & Hreach)|(Hrun & _ & Hsp)];
    [|done].
  pose proof (generation_effects env st inp idb Hreach) as Heff.
  destruct Hreach as (Hin & Hne & Hex & Hask & Hidb & Hidbne).
  cbv zeta in Heff.
  destruct Hfail as [e He|o Ho Hfalsy|p Hp Habsent|e He|e He|o Ho Hfalsy
                     |e He|inp' idb' n e Hin' Hidb' Hw Hn|e He].
  - congruence.
  - rewrite Hin in Ho. injection Ho as <-. by rewrite truthy_Some in Hfalsy.
  - rewrite Hin in Hp. injection Hp as <-. congruence.
  - congruence.
  - congruence.
  - rewrite Hidb in Ho. injection Ho as <-. by rewrite truthy_Some in Hfalsy.
  - rewrite He in Heff. destruct Heff as (-> & _ & ->). by split; [exists 0|].
  - rewrite Hin in Hin'. injection Hin' as <-.
    rewrite Hidb in Hidb'. injection Hidb' as <-.
    destruct (open_error env).
    { destruct Heff as (-> & _ & ->). by split; [exists 0|]. }
    unfold write_failure in Heff. rewrite Hw in Heff.
    rewrite bool_decide_eq_true_2 in Heff by done.
    destruct Heff as (-> & _ & ->). by split; [exists 0|].
  - rewrite He in Heff.
    destruct (open_error env).
    { destruct Heff as (-> & _ & ->). by split; [exists 0|]. }
    destruct (write_failure env _) as [[n e']|].
    { destruct Heff as (-> & _ & ->). by split; [exists 0|]. }
    destruct Heff as (_ & -> & ->). by split; [exists 0|].
Qed.

Lemma failure_never_terminates_witness :
  host_running (outcome Sample.env_disk_full Sample.st)
  /\ spawned (final Sample.env_disk_full Sample.st) = spawned Sample.st.
Proof.
  apply (failure_never_terminates Sample.env_disk_full Sample.st).
  apply (write_fails Sample.env_disk_full Sample.st Sample.bin Sample.idb
           3%nat "No space left on device").
  - reflexivity.
  - reflexivity.
  - reflexivity.
  - vm_compute. lia.
Defined.

(** ** C3: what a failed generation leaves on disk *)

(** C3, counterexample: when the fourth write fails, [/tmp/sample_reload.bat]
    stays on disk with its first three chunks and is never launched. *)
Lemma partial_script_lingers :
  ~ script_all_or_nothing Sample.env_disk_full Sample.st Sample.bin Sample.idb.
Proof.
  unfold script_all_or_nothing.
  intros [[Hfull _]|Hnone]; vm_compute in Hfull || vm_compute in Hnone;
    discriminate.
Qed.

(** C3, amended: the script is launched, and the host terminated, only
    after the whole script has been written; a failure to open the script
    leaves the disk as it was; a failing write or launch neither launches
    anything nor terminates the host, and the script file stays on disk,
    holding the chunks written before the failure (all of them when only
    the launch fails). *)
Theorem launch_only_after_full_script (env : Env) (st : State)
    (input_path idb_path : string) :
  reaches_generation env st input_path idb_path ->
  let bp := batch_path_of env idb_path in
  let lines := full_script env st input_path idb_path in
  ((outcome env st = Halt 0 \/ spawned (final env st) <> spawned st) ->
     fs (final env st) !! bp = Some lines
     /\ outcome env st = Halt 0
     /\ spawned (final env st) = spawned st ++ [batch_spawn env idb_path])
  /\ (forall e, open_error env = Some e ->
        outcome env st = Val 0
        /\ spawned (final env st) = spawned st
        /\ fs (final env st) = fs st)
  /\ (forall n e, open_error env = None -> write_failure env lines = Some (n, e) ->
        outcome env st = Val 0
        /\ spawned (final env st) = spawned st
        /\ fs (final env st) !! bp = Some (take n lines))
  /\ (forall e, open_error env = None -> write_failure env lines = None ->
        popen_error env = Some e ->
        outcome env st = Val 0
        /\ spawned (final env st) = spawned st
        /\ fs (final env st) !! bp = Some lines).
Proof.
  intros Hreach bp lines.
  pose proof (generation_effects env st input_path idb_path Hreach) as Heff.
  cbv zeta in Heff. fold bp lines in Heff.
  split; [|split; [|split]].
  - intros Hlaunched.
    destruct (open_error env);
      [destruct Heff as (Ho & _ & Hs), Hlaunched; congruence|].
    destruct (write_failure env lines) as [[n e]|];
      [destruct Heff as (Ho & _ & Hs), Hlaunched; congruence|].
    destruct Heff as (-> & Heff). rewrite lookup_insert_eq.
    destruct (popen_error env); [|tauto].
    destruct Heff as (Ho & Hs), Hlaunched; congruence.
  - intros e He. rewrite He in Heff. tauto.
  - intros n e Hopen Hw. rewrite Hopen, Hw in Heff.
    destruct Heff as (Ho & -> & Hs). by rewrite lookup_insert_eq.
  - intros e Hopen Hw Hp. rewrite Hopen, Hw, Hp in Heff.
    destruct Heff as (-> & Ho & Hs). by rewrite lookup_insert_eq.
Qed.

Lemma launch_only_after_full_script_witness :
  outcome Sample.env_disk_full Sample.st = Val 0
  /\ spawned (final Sample.env_disk_full Sample.st) = spawned Sample.st
  /\ fs (final Sample.env_disk_full Sample.st)
       !! batch_path_of Sample.env_disk_full Sample.idb
     = Some (take 3 (full_script Sample.env_disk_full Sample.st Sample.bin Sample.idb)).
Proof.
  refine (proj1 (proj2 (proj2
    (launch_only_after_full_script Sample.env_disk_full Sample.st
       Sample.bin Sample.idb _))) 3%nat "No space left on device" _ _).
  - sample_reaches.
  - reflexivity.
  - vm_compute. reflexivity.
Defined.

(** ** C5: the layout of the script *)

(** C5, counterexample: the first line of [/tmp/sample_reload.bat] is
    ["@echo off"], not the delay. *)
Lemma script_starts_with_echo_off :
  ~ script_in_claimed_order Sample.env Sample.st Sample.bin Sample.idb.
Proof.
  intros (dels & _ & Hscript). vm_compute in Hscript.
  injection Hscript as Hhead _. discriminate.
Qed.

(** C5, amended: when the script is opened and written without error, it
    is the file at the database stem plus ["_reload.bat"], and its lines are,
    in order: ["@echo off"], the delay, the deletion commands, the relaunch
    command, and the self-deletion command last. *)
Theorem script_layout (env : Env) (st : State) (input_path idb_path : string) :
  reaches_generation env st input_path idb_path ->
  open_error env = None ->
  write_failure env (full_script env st input_path idb_path) = None ->
  let bp := stem env idb_path +:+ "_reload.bat" in
  exists dels,
    Forall is_del_line dels
    /\ fs (final env st) !! bp
       = Some (echo_off_line :: delay_line :: dels
               ++ [start_line (sys_executable env) input_path; self_del_line bp]).
Proof.
  intros Hreach Hopen Hw bp.
  pose proof (generation_effects env st input_path idb_path Hreach) as Heff.
  cbv zeta in Heff. rewrite Hopen, Hw in Heff. destruct Heff as (-> & _).
  fold (batch_path_of env idb_path) in bp. subst bp.
  rewrite lookup_insert_eq. unfold full_script, script_lines.
  set (here := map del_line (List.filter _ _)).
  set (there := if negb _ then _ else _).
  exists (here ++ there). split; [|by rewrite <- app_assoc].
  subst here there. apply Forall_app. split.
  - apply Forall_forall. intros l Hl. apply list_elem_of_In, in_map_iff in Hl.
    destruct Hl as (p & <- & _). by exists p.
  - destruct (negb _); [|constructor].
    apply Forall_forall. intros l Hl. apply list_elem_of_In, in_map_iff in Hl.
    destruct Hl as (ext & <- & _). by eexists.
Qed.

Lemma script_layout_witness :
  exists dels,
    Forall is_del_line dels
    /\ fs (final Sample.env Sample.st) !! (stem Sample.env Sample.idb +:+ "_reload.bat")
       = Some (echo_off_line :: delay_line :: dels
               ++ [start_line (sys_executable Sample.env) Sample.bin;
                   self_del_line (stem Sample.env Sample.idb +:+ "_reload.bat")]).
Proof.
  apply (script_layout Sample.env Sample.st Sample.bin Sample.idb).
  - sample_reaches.
  - reflexivity.
  - reflexivity.
Defined.

(** ** C2: which deletion commands the script holds *)

(** C2, counterexample: with the database at [/work/sample.i64] and no
    [/work/sample.id0] on disk, the script has no command deleting
    [/work/sample.id0]; with the database at [/tmp/sample.i64], next to the
    binary, it has none deleting [/tmp/sample.id0] either. *)
Lemma absent_components_not_deleted :
  ~ deletions_as_claimed Sample.env_elsewhere Sample.st Sample.bin "/work/sample.i64"
  /\ ~ deletions_as_claimed Sample.env Sample.st Sample.bin Sample.idb.
Proof.
  split; intros (script & Hscript & Hdiff & Hsame).
  - vm_compute in Hscript. injection Hscript as <-.
    assert (Hne : stem Sample.env_elsewhere "/work/sample.i64"
                  <> stem Sample.env_elsewhere Sample.bin)
      by (vm_compute; discriminate).
    destruct (Hdiff Hne ".id0") as [Hin _]; [by left|].
    vm_compute in Hin. intuition discriminate.
  - vm_compute in Hscript. injection Hscript as <-.
    assert (Heq : stem Sample.env Sample.idb = stem Sample.env Sample.bin)
      by (vm_compute; reflexivity).
    specialize (Hsame Heq ".id0"). vm_compute in Hsame.
    assert (0 = 1)%nat by (apply Hsame; by left). discriminate.
Qed.

(** Membership in the first loop's output. *)
Lemma in_first_loop (st : State) (s ext : string) :
  In ext extensions ->
  In (del_line (s +:+ ext))
     (map del_line (List.filter (file_exists st)
                      (map (fun ext => s +:+ ext) extensions)))
  <-> file_exists st (s +:+ ext) = true.
Proof.
  intros Hext. rewrite in_map_iff. split.
  - intros (p & Hp & Hin). apply del_line_inj in Hp as ->.
    by apply List.filter_In in Hin as [_ ?].
  - intros Hex. exists (s +:+ ext). split; [done|].
    apply List.filter_In. split; [|done].
    apply in_map_iff. by exists ext.
Qed.

Lemma NoDup_map_injective {A B} (f : A -> B) (l : list A) :
  (forall x y, f x = f y -> x = y) -> List.NoDup l -> List.NoDup (map f l).
Proof.
  intros Hinj Hl. induction Hl as [|x l Hx Hl IH]; simpl.
  - apply List.NoDup_nil.
  - apply List.NoDup_cons; [|done].
    intros Hin. apply in_map_iff in Hin as (y & Hy & Hin).
    apply Hinj in Hy as ->. done.
Qed.

Lemma first_loop_NoDup (st : State) (s : string) :
  List.NoDup (map del_line (List.filter (file_exists st)
                              (map (fun ext => s +:+ ext) extensions))).
Proof.
  apply NoDup_map_injective; [apply del_line_inj|].
  apply List.NoDup_filter.
  apply NoDup_map_injective; [|apply extensions_NoDup].
  intros a b. apply (inj (String.app s)).
Qed.

(** C2, amended: in a script written without error, every extension has a
    deletion command for the binary's stem when the two stems differ, and a
    deletion command for the database's stem exactly when that component
    exists on disk at generation time; when the stems are equal, the
    command for an extension appears once if the component exists and not
    at all otherwise. *)
Theorem deletions_in_script (env : Env) (st : State) (input_path idb_path : string) :
  reaches_generation env st input_path idb_path ->
  open_error env = None ->
  write_failure env (full_script env st input_path idb_path) = None ->
  let s := stem env idb_path in
  let t := stem env input_path in
  let script := full_script env st input_path idb_path in
  fs (final env st) !! batch_path_of env idb_path = Some script
  /\ (s <> t -> forall ext, In ext extensions ->
        In (del_line (t +:+ ext)) script
        /\ (In (del_line (s +:+ ext)) script <-> file_exists st (s +:+ ext) = true))
  /\ (s = t -> forall ext, In ext extensions ->
        count_occ string_dec script (del_line (s +:+ ext))
        = if file_exists st (s +:+ ext) then 1%nat else 0%nat).
Proof.
  intros Hreach Hopen Hw s t script.
  pose proof (generation_effects env st input_path idb_path Hreach) as Heff.
  cbv zeta in Heff. rewrite Hopen, Hw in Heff. destruct Heff as (-> & _).
  split; [by rewrite lookup_insert_eq|].
  subst script. unfold full_script, script_lines, batch_path_of. fold s t.
  split.
  - intros Hne ext Hext.
    apply String.eqb_neq in Hne as Hneb. rewrite Hneb. cbn [negb].
    split.
    + apply in_or_app; right. apply in_or_app; right. apply in_or_app; left.
      apply in_map_iff. by exists ext.
    + split.
      * intros Hin. apply in_app_or in Hin as [Hin|Hin].
        { destruct Hin as [Hin|[Hin|[]]]; symmetry in Hin.
          - by apply del_line_not_echo_off in Hin.
          - by apply del_line_not_delay in Hin. }
        apply in_app_or in Hin as [Hin|Hin]; [by apply in_first_loop in Hin|].
        apply in_app_or in Hin as [Hin|Hin].
        { apply in_map_iff in Hin as (ext' & Heq & Hext').
          apply del_line_inj in Heq.
          destruct (stem_ext_inj t s ext' ext Hext' Hext Heq) as [Hts _].
          congruence. }
        destruct Hin as [Hin|[Hin|[]]]; symmetry in Hin.
        { by apply del_line_not_start in Hin. }
        by apply del_line_not_self_del in Hin.
      * intros Hex. apply in_or_app; right. apply in_or_app; left.
        by apply in_first_loop.
  - intros Heq ext Hext. rewrite <- Heq, String.eqb_refl. cbn [negb].
    rewrite !count_occ_app. cbn [app].
    assert (Hhead : count_occ string_dec [echo_off_line; delay_line]
                      (del_line (s +:+ ext)) = 0%nat).
    { apply count_occ_not_In. intros [Hin|[Hin|[]]]; symmetry in Hin.
      - by apply del_line_not_echo_off in Hin.
      - by apply del_line_not_delay in Hin. }
    assert (Htail : count_occ string_dec
                      [start_line (sys_executable env) input_path;
                       self_del_line (s +:+ "_reload.bat")]
                      (del_line (s +:+ ext)) = 0%nat).
    { apply count_occ_not_In. intros [Hin|[Hin|[]]]; symmetry in Hin.
      - by apply del_line_not_start in Hin.
      - by apply del_line_not_self_del in Hin. }
    rewrite Hhead, Htail. cbn [count_occ]. rewrite Nat.add_0_l, Nat.add_0_r.
    destruct (file_exists st (s +:+ ext)) eqn:Hex.
    + apply (proj1 (NoDup_count_occ' string_dec _) (first_loop_NoDup st s)).
      by apply in_first_loop.
    + apply count_occ_not_In. intros Hin.
      apply in_first_loop in Hin; congruence.
Qed.

Lemma deletions_in_script_witness :
  let script :=
    full_script Sample.env_elsewhere Sample.st Sample.bin "/work/sample.i64" in
  fs (final Sample.env_elsewhere Sample.st)
     !! batch_path_of Sample.env_elsewhere "/work/sample.i64" = Some script
  /\ In (del_line "/tmp/sample.id0") script
  /\ (In (del_line "/work/sample.id0") script
      <-> file_exists Sample.st "/work/sample.id0" = true)
  /\ (In (del_line "/work/sample.i64") script
      <-> file_exists Sample.st "/work/sample.i64" = true).
Proof.
  destruct (deletions_in_script Sample.env_elsewhere Sample.st Sample.bin
              "/work/sample.i64") as (Hfile & Hdiff & _).
  - sample_reaches.
  - reflexivity.
  - reflexivity.
  - assert (Hne : stem Sample.env_elsewhere "/work/sample.i64"
                  <> stem Sample.env_elsewhere Sample.bin)
      by (vm_compute; discriminate).
    destruct (Hdiff Hne ".id0") as (Hbin & Hid0); [vm_compute; tauto|].
    destruct (Hdiff Hne ".i64") as (_ & Hi64); [vm_compute; tauto|].
    exact (conj Hfile (conj Hbin (conj Hid0 Hi64))).
Defined.

(** ** C6: the relaunch and the self-deletion *)

Lemma start_line_mentions (ida_exe input_path : string) :
  String.prefix "start " (start_line ida_exe input_path) = true
  /\ occurs_in (dq +:+ ida_exe +:+ dq) (start_line ida_exe input_path)
  /\ occurs_in " -A " (start_line ida_exe input_path)
  /\ occurs_in " -c " (start_line ida_exe input_path)
  /\ occurs_in (dq +:+ input_path +:+ dq) (start_line ida_exe input_path).
Proof.
  unfold start_line, occurs_in. repeat split.
  - exists ("start " +:+ dq +:+ dq +:+ " "),
      (" -A -c " +:+ dq +:+ input_path +:+ dq +:+ nl).
    by rewrite !string_app_assoc.
  - exists ("start " +:+ dq +:+ dq +:+ " " +:+ dq +:+ ida_exe +:+ dq),
      ("-c " +:+ dq +:+ input_path +:+ dq +:+ nl).
    by rewrite !string_app_assoc.
  - exists ("start " +:+ dq +:+ dq +:+ " " +:+ dq +:+ ida_exe +:+ dq +:+ " -A"),
      (dq +:+ input_path +:+ dq +:+ nl).
    by rewrite !string_app_assoc.
  - exists ("start " +:+ dq +:+ dq +:+ " " +:+ dq +:+ ida_exe +:+ dq +:+ " -A -c "), nl.
    by rewrite !string_app_assoc.
Qed.

Lemma self_del_line_mentions (batch_path : string) :
  String.prefix "del /F /Q " (self_del_line batch_path) = true
  /\ occurs_in (dq +:+ batch_path +:+ dq) (self_del_line batch_path).
Proof.
  unfold self_del_line, occurs_in. split; [done|].
  exists "del /F /Q ", nl. by rewrite !string_app_assoc.
Qed.

(** C6: in a script written without error, the last line but one is the
    [start] command, naming [sys.executable] and the input path in quotes
    and carrying [-A] and [-c]; the last line is a [del /F /Q] of the
    script's own path. *)
Theorem relaunch_then_self_delete (env : Env) (st : State)
    (input_path idb_path : string) :
  reaches_generation env st input_path idb_path ->
  open_error env = None ->
  write_failure env (full_script env st input_path idb_path) = None ->
  let bp := batch_path_of env idb_path in
  exists front relaunch self_delete,
    fs (final env st) !! bp = Some (front ++ [relaunch; self_delete])
    /\ String.prefix "start " relaunch = true
    /\ occurs_in (dq +:+ sys_executable env +:+ dq) relaunch
    /\ occurs_in " -A " relaunch
    /\ occurs_in " -c " relaunch
    /\ occurs_in (dq +:+ input_path +:+ dq) relaunch
    /\ String.prefix "del /F /Q " self_delete = true
    /\ occurs_in (dq +:+ bp +:+ dq) self_delete.
Proof.
  intros Hreach Hopen Hw bp.
  pose proof (generation_effects env st input_path idb_path Hreach) as Heff.
  cbv zeta in Heff. rewrite Hopen, Hw in Heff. destruct Heff as (-> & _).
  fold bp. rewrite lookup_insert_eq. unfold full_script, script_lines. fold bp.
  eexists _, (start_line (sys_executable env) input_path), (self_del_line bp).
  split; [by rewrite !app_assoc|].
  destruct (start_line_mentions (sys_executable env) input_path)
    as (? & ? & ? & ? & ?).
  destruct (self_del_line_mentions bp) as (? & ?).
  done.
Qed.

Lemma relaunch_then_self_delete_witness :
  exists front relaunch self_delete,
    fs (final Sample.env Sample.st) !! batch_path_of Sample.env Sample.idb
      = Some (front ++ [relaunch; self_delete])
    /\ String.prefix "start " relaunch = true
    /\ occurs_in (dq +:+ sys_executable Sample.env +:+ dq) relaunch
    /\ occurs_in " -A " relaunch
    /\ occurs_in " -c " relaunch
    /\ occurs_in (dq +:+ Sample.bin +:+ dq) relaunch
    /\ String.prefix "del /F /Q " self_delete = true
    /\ occurs_in (dq +:+ batch_path_of Sample.env Sample.idb +:+ dq) self_delete.
Proof.
  apply (relaunch_then_self_delete Sample.env Sample.st Sample.bin Sample.idb).
  - sample_reaches.
  - reflexivity.
  - reflexivity.
Defined.

(** ** C10: one script for every platform *)

Lemma rfind_from_lacks (c : ascii) (p : string) (i acc : Z) :
  lacks c p = true -> Path.rfind_from c p i acc = acc.
Proof.
  revert i acc. induction p as [|a q IH]; intros i acc Hlacks; simpl in *; [done|].
  apply andb_prop in Hlacks as [Ha Hq]. apply negb_true_iff in Ha.
  rewrite Ha. by apply IH.
Qed.

Lemma rfind_from_lower_bound (c : ascii) (p : string) (i acc : Z) :
  -1 <= acc -> 0 <= i -> -1 <= Path.rfind_from c p i acc.
Proof.
  revert i acc. induction p as [|a q IH]; intros i acc Hacc Hi; simpl; [done|].
  apply IH; [|lia]. destruct (Ascii.eqb a c); lia.
Qed.

(** On a path without a backslash, [ntpath.splitext] and
    [posixpath.splitext] give the same split. *)
Lemma splitext_platform_agree (name1 name2 p : string) :
  lacks "\"%char p = true -> Path.splitext name1 p = Path.splitext name2 p.
Proof.
  intros Hlacks.
  assert (Hnt : Path._splitext p "\"%char (Some "/"%char)
                = Path._splitext p "/"%char None).
  { assert (Hback : Path.rfind "\"%char p = -1)
      by (by apply rfind_from_lacks).
    assert (Hlow : -1 <= Path.rfind "/"%char p)
      by (apply rfind_from_lower_bound; lia).
    unfold Path._splitext. rewrite Hback.
    by rewrite Z.max_r by done. }
  unfold Path.splitext.
  destruct (String.eqb name1 "nt"), (String.eqb name2 "nt"); congruence.
Qed.





(** ** Concrete runs *)

Example splitext_samples :
  Path.splitext "posix" "/tmp/sample.i64" = ("/tmp/sample", ".i64")
  /\ Path.splitext "posix" "/tmp/.bashrc" = ("/tmp/.bashrc", EmptyString)
  /\ Path.splitext "posix" "/tmp.d/sample" = ("/tmp.d/sample", EmptyString)
  /\ Path.splitext "nt" "C:\work.d\sample" = ("C:\work.d\sample", EmptyString)
  /\ Path.splitext "posix" "C:\work.d\sample" = ("C:\work", ".d\sample").
Proof. repeat split. Qed.

(** The scenario of the specification: binary [/tmp/sample.bin], database
    [/tmp/sample.i64], confirmation accepted. *)
Example sample_run :
  activate Sample.env Sample.st =
  (Halt 0,
   {| fs := <["/tmp/sample_reload.bat" :=
               [echo_off_line; delay_line; del_line "/tmp/sample.i64";
                start_line "/opt/ida/ida64" "/tmp/sample.bin";
                self_del_line "/tmp/sample_reload.bat"]]> (fs Sample.st);
      console := ["[Reload] Reloading binary from: /tmp/sample.bin";
                  "[Reload] Auto-reload enabled - no confirmation needed";
                  "[Reload] Created reload script: /tmp/sample_reload.bat";
                  "[Reload] Closing IDA..."];
      warnings := [];
      spawned := [{| sp_args := ["/tmp/sample_reload.bat"]; sp_shell := true;
                     sp_creationflags := 0 |}] |}).
Proof. vm_compute. reflexivity. Qed.

Example sample_run_nt :
  spawned (final Sample.env_nt Sample.st)
  = [{| sp_args := ["/tmp/sample_reload.bat"]; sp_shell := true;
        sp_creationflags := 134217728 |}].
Proof. vm_compute. reflexivity. Qed.

Example sample_run_elsewhere :
  fs (final Sample.env_elsewhere Sample.st) !! "/work/sample_reload.bat"
  = Some ([echo_off_line; delay_line; del_line "/work/sample.i64"]
          ++ map (fun ext => del_line ("/tmp/sample" +:+ ext)) extensions
          ++ [start_line "/opt/ida/ida64" "/tmp/sample.bin";
              self_del_line "/work/sample_reload.bat"]).
Proof. vm_compute. reflexivity. Qed.

Example sample_run_disk_full :
  activate Sample.env_disk_full Sample.st =
  (Val 0,
   {| fs := <["/tmp/sample_reload.bat" :=
               [echo_off_line; delay_line; del_line "/tmp/sample.i64"]]>
              (fs Sample.st);
      console := ["[Reload] Reloading binary from: /tmp/sample.bin";
                  "[Reload] Auto-reload enabled - no confirmation needed";
                  "[Reload] Error creating reload script: No space left on device"];
      warnings := ["Failed to create reload script: No space left on device"];
      spawned := [] |}).
Proof. vm_compute. reflexivity. Qed.

Example sample_run_missing :
  activate Sample.env_missing Sample.st =
  (Val 0,
   {| fs := fs Sample.st;
      console := ["[Reload] Error: File not found: /tmp/gone.bin"];
      warnings := ["File not found: /tmp/gone.bin"];
      spawned := [] |}).
Proof. vm_compute. reflexivity. Qed.

(** * Part III: further properties of the code *)

(** ** How an activation ends *)

(** Before script generation there are two ways out: the user declines
    (result 1, nothing shown), or a check fails or a query raises (result
    0, one warning shown).  Neither touches a file or starts a process. *)
Lemma activate_before_generation (env : Env) (st : State) :
  (exists input_path idb_path, reaches_generation env st input_path idb_path)
  \/ (declined env st
      /\ outcome env st = Val 1
      /\ fs (final env st) = fs st
      /\ spawned (final env st) = spawned st
      /\ warnings (final env st) = warnings st)
  \/ (outcome env st = Val 0
      /\ fs (final env st) = fs st
      /\ spawned (final env st) = spawned st
      /\ exists w, warnings (final env st) = warnings st ++ [w]).
Proof.
  destruct (get_input_file_path env) as [e|[input_path|]] eqn:Hin.
  - right; right. run_activate. rewrite Hin. simpl. eauto 6.
  - destruct (String.eqb input_path EmptyString) eqn:Hne.
    { right; right. run_activate. rewrite Hin; simpl. rewrite Hne.
      simpl. eauto 6. }
    destruct (file_exists st input_path) eqn:Hex.
    2:{ right; right. run_activate. rewrite Hin; simpl. rewrite Hne; simpl.
        fold (file_exists st input_path). rewrite Hex. simpl. eauto 6. }
    destruct (ask_yn env) as [e|answer] eqn:Hask.
    { right; right. run_activate. rewrite Hin; simpl. rewrite Hne; simpl.
      fold (file_exists st input_path). rewrite Hex; simpl. rewrite Hask.
      simpl. eauto 6. }
    destruct (Z.eqb_spec answer (ASKBTN_YES env)) as [->|Hanswer].
    2:{ right; left. split.
        { exists input_path, answer. apply String.eqb_neq in Hne. done. }
        run_activate. rewrite Hin; simpl. rewrite Hne; simpl.
        fold (file_exists st input_path). rewrite Hex; simpl.
        rewrite Hask; simpl.
        apply Z.eqb_neq in Hanswer. rewrite Hanswer. simpl. done. }
    destruct (get_path env) as [e|[idb_path|]] eqn:Hidb.
    + right; right. run_activate. rewrite Hin; simpl. rewrite Hne; simpl.
      fold (file_exists st input_path). rewrite Hex; simpl.
      rewrite Hask; simpl. rewrite Z.eqb_refl; simpl. rewrite Hidb.
      simpl. eauto 6.
    + destruct (String.eqb idb_path EmptyString) eqn:Hidbne.
      * right; right. run_activate. rewrite Hin; simpl. rewrite Hne; simpl.
        fold (file_exists st input_path). rewrite Hex; simpl.
        rewrite Hask; simpl. rewrite Z.eqb_refl; simpl.
        rewrite Hidb; simpl. rewrite Hidbne. simpl. eauto 6.
      * left. exists input_path, idb_path.
        apply String.eqb_neq in Hne, Hidbne. by repeat split.
    + right; right. run_activate. rewrite Hin; simpl. rewrite Hne; simpl.
      fold (file_exists st input_path). rewrite Hex; simpl.
      rewrite Hask; simpl. rewrite Z.eqb_refl; simpl. rewrite Hidb.
      simpl. eauto 6.
  - right; right. run_activate. rewrite Hin. simpl. eauto 6.
Qed.

(** Two paths and two answers cannot both be the ones of a session. *)
Lemma reaches_generation_not_declined (env : Env) (st : State)
    (input_path idb_path : string) :
  reaches_generation env st input_path idb_path -> ~ declined env st.
Proof.
  intros (Hin & _ & _ & Hask & _) (p & answer & _ & _ & _ & Hask' & Hno).
  rewrite Hask in Hask'. injection Hask' as <-. done.
Qed.

(** The result once script generation is reached. *)
Lemma generation_result (env : Env) (st : State) (input_path idb_path : string) :
  reaches_generation env st input_path idb_path ->
  (generation_succeeds env st input_path idb_path /\ outcome env st = Halt 0)
  \/ (~ generation_succeeds env st input_path idb_path /\ outcome env st = Val 0).
Proof.
  intros Hreach.
  pose proof (generation_effects env st input_path idb_path Hreach) as Heff.
  cbv zeta in Heff. unfold generation_succeeds.
  destruct (open_error env) as [e|].
  { right. split; [intros (H & _); discriminate | tauto]. }
  destruct (write_failure env _) as [[n e]|].
  { right. split; [intros (_ & H & _); discriminate | tauto]. }
  destruct (popen_error env) as [e|].
  { right. split; [intros (_ & _ & H); discriminate | tauto]. }
  left. tauto.
Qed.

(** X1: no exception of class [Exception] raised by a host query, by
    [open], by [f.write] or by [subprocess.Popen] escapes [activate]: one of
    the two [except Exception] clauses catches it, so that whatever the
    host answers and whichever of these calls raises such an exception,
    [activate] returns 0, returns 1, or ends the process with exit code 0.
    ([KeyboardInterrupt], [SystemExit] and the like are not of class
    [Exception]; the clauses let them through, and they are outside the
    model.) *)
Theorem no_Exception_escapes (env : Env) (st : State) :
  outcome env st = Val 0 \/ outcome env st = Val 1 \/ outcome env st = Halt 0.
Proof.
  destruct (activate_before_generation env st)
    as [(inp & idb & Hreach)|[(_ & Ho & _)|(Ho & _)]]; [|tauto|tauto].
  destruct (generation_result env st inp idb Hreach) as [(_ & Ho)|(_ & Ho)]; tauto.
Qed.

(** X2: [activate] returns 1 exactly when the prompt is reached and the
    user's answer is not [ASKBTN_YES]; the [return 1] after the inner [try]
    is never reached. *)
Theorem returns_one_iff_declined (env : Env) (st : State) :
  outcome env st = Val 1 <-> declined env st.
Proof.
  destruct (activate_before_generation env st)
    as [(inp & idb & Hreach)|[(Hdecl & Ho & _)|(Ho & _)]].
  - split.
    + intros Hone.
      destruct (generation_result env st inp idb Hreach) as [(_ & Ho)|(_ & Ho)];
        rewrite Ho in Hone; discriminate.
    + intros Hdecl. by destruct (reaches_generation_not_declined _ _ _ _ Hreach).
  - tauto.
  - split; [intros Hone; rewrite Ho in Hone; discriminate|].
    intros (p & answer & Hin & Hne & Hex & Hask & Hno).
    revert Ho. run_activate. rewrite Hin. cbn [truthy from_option id].
    rewrite (string_eqb_empty_false _ Hne). cbn [negb].
    fold (file_exists st p). rewrite Hex. cbn [negb log].
    rewrite Hask. apply Z.eqb_neq in Hno. rewrite Hno. cbn. discriminate.
Qed.

(** X3: the host process is ended exactly when every step succeeds: both
    paths are there, the input file exists, the user confirms, and the
    script is opened, written in full and launched without error. *)
Theorem exits_iff_prepared (env : Env) (st : State) :
  outcome env st = Halt 0
  <-> exists input_path idb_path,
        reaches_generation env st input_path idb_path
        /\ generation_succeeds env st input_path idb_path.
Proof.
  split.
  - intros Hhalt.
    destruct (activate_before_generation env st)
      as [(inp & idb & Hreach)|[(_ & Ho & _)|(Ho & _)]];
      [|rewrite Ho in Hhalt; discriminate..].
    exists inp, idb. split; [done|].
    destruct (generation_result env st inp idb Hreach) as [(Hok & _)|(_ & Ho)];
      [done|rewrite Ho in Hhalt; discriminate].
  - intros (inp & idb & Hreach & Hok).
    by destruct (generation_result env st inp idb Hreach) as [(_ & Ho)|(Hbad & _)].
Qed.

Lemma snoc_not_same {A} (l : list A) (x : A) : l ++ [x] <> l.
Proof.
  intros Heq. apply (f_equal length) in Heq. rewrite length_app in Heq.
  simpl in Heq. lia.
Qed.

(** X4: a child process is started exactly when the host process is ended,
    and then it is the one script, run through the shell: no script is
    launched under a host that keeps running, and the host never exits
    without having launched the script. *)
Theorem spawns_iff_exits (env : Env) (st : State) :
  (spawned (final env st) <> spawned st <-> outcome env st = Halt 0)
  /\ (outcome env st = Halt 0 ->
      exists idb_path,
        get_path env = inr (Some idb_path)
        /\ spawned (final env st) = spawned st ++ [batch_spawn env idb_path]).
Proof.
  destruct (activate_before_generation env st)
    as [(inp & idb & Hreach)|[(_ & Ho & _ & Hs & _)|(Ho & _ & Hs & _)]].
  - pose proof (generation_effects env st inp idb Hreach) as Heff.
    cbv zeta in Heff.
    assert (Hidb : get_path env = inr (Some idb)) by apply Hreach.
    destruct (open_error env) as [e|].
    { destruct Heff as (Ho & _ & Hs). rewrite Ho, Hs.
      split; [split|]; intros; [done|discriminate..]. }
    destruct (write_failure env _) as [[n e]|].
    { destruct Heff as (Ho & _ & Hs). rewrite Ho, Hs.
      split; [split|]; intros; [done|discriminate..]. }
    destruct Heff as (_ & Heff). destruct (popen_error env) as [e|].
    { destruct Heff as (Ho & Hs). rewrite Ho, Hs.
      split; [split|]; intros; [done|discriminate..]. }
    destruct Heff as (Ho & Hs). rewrite Ho, Hs.
    split; [split; [done|intros _; apply snoc_not_same]|].
    intros _. by exists idb.
  - rewrite Ho, Hs. split; [split|]; intros; [done|discriminate..].
  - rewrite Ho, Hs. split; [split|]; intros; [done|discriminate..].
Qed.

(** ** Reporting *)

(** X5: when a host query raises (the input-path query, the prompt, or the
    database-path query), the outer [except] reports it: [activate] returns
    0 after the warning "Error during reload: <text>", with the console
    line "[Reload] Exception occurred: <text>" last, and no file or process
    is touched. *)
Theorem query_exception_reported (env : Env) (st : State) (e : string) :
  query_raises env st e ->
  outcome env st = Val 0
  /\ fs (final env st) = fs st
  /\ spawned (final env st) = spawned st
  /\ warnings (final env st) = warnings st ++ ["Error during reload: " +:+ e]
  /\ last (console (final env st)) = Some ("[Reload] Exception occurred: " +:+ e).
Proof.
  intros [Hin|p Hin Hne Hex Hask|p Hin Hne Hex Hask Hidb].
  - run_activate. rewrite Hin. cbn. by rewrite last_snoc.
  - run_activate. rewrite Hin. cbn [truthy from_option id].
    rewrite (string_eqb_empty_false _ Hne). cbn [negb].
    fold (file_exists st p). rewrite Hex. cbn [negb log].
    rewrite Hask. cbn. by rewrite last_snoc.
  - run_activate. rewrite Hin. cbn [truthy from_option id].
    rewrite (string_eqb_empty_false _ Hne). cbn [negb].
    fold (file_exists st p). rewrite Hex. cbn [negb log].
    rewrite Hask, Z.eqb_refl. cbn [negb]. rewrite Hidb.
    cbn. by rewrite last_snoc.
Qed.

Lemma query_exception_reported_witness :
  outcome Scenario.env_idb_raises Sample.st = Val 0
  /\ fs (final Scenario.env_idb_raises Sample.st) = fs Sample.st
  /\ spawned (final Scenario.env_idb_raises Sample.st) = spawned Sample.st
  /\ warnings (final Scenario.env_idb_raises Sample.st)
     = warnings Sample.st ++ ["Error during reload: " +:+ "database is closed"]
  /\ last (console (final Scenario.env_idb_raises Sample.st))
     = Some ("[Reload] Exception occurred: " +:+ "database is closed").
Proof.
  apply (query_exception_reported Scenario.env_idb_raises Sample.st
           "database is closed").
  apply (raises_at_idb_path _ _ _ Sample.bin).
  - reflexivity.
  - discriminate.
  - vm_compute. reflexivity.
  - reflexivity.
  - reflexivity.
Defined.

(** X6: exactly one warning accompanies every return of 0, and none is
    shown when [activate] returns 1 or ends the process. *)
Theorem one_warning_per_failure (env : Env) (st : State) :
  (outcome env st = Val 0 ->
     exists w, warnings (final env st) = warnings st ++ [w])
  /\ (outcome env st <> Val 0 -> warnings (final env st) = warnings st).
Proof.
  destruct (activate_before_generation env st)
    as [(inp & idb & Hreach)|[(_ & Ho & _ & _ & Hw)|(Ho & _ & _ & Hw)]].
  - unfold outcome, final.
    rewrite (activate_generation env st inp idb Hreach).
    unfold generation_outcome.
    destruct (open_error env) as [e|]; [cbn; split; [eauto|done]|].
    destruct (write_failure env _) as [[n e]|]; [cbn; split; [eauto|done]|].
    destruct (popen_error env) as [e|]; [cbn; split; [eauto|done]|].
    cbn. split; [discriminate|done].
  - rewrite Ho, Hw. split; [discriminate|done].
  - rewrite Ho. split; [done|]. intros Hno. by destruct Hno.
Qed.

(** ** Files *)

(** X7: the only file [activate] itself ever creates or changes is the
    script next to the database: a path whose content differs afterwards
    is the script's path, in a session that got as far as opening it. *)
Theorem only_the_script_is_written (env : Env) (st : State) (p : string) :
  fs (final env st) !! p <> fs st !! p ->
  exists input_path idb_path,
    reaches_generation env st input_path idb_path
    /\ open_error env = None
    /\ p = batch_path_of env idb_path.
Proof.
  intros Hdiff.
  destruct (activate_before_generation env st)
    as [(inp & idb & Hreach)|[(_ & _ & Hfs & _)|(_ & Hfs & _)]];
    [|by rewrite Hfs in Hdiff..].
  exists inp, idb. split; [done|].
  pose proof (generation_effects env st inp idb Hreach) as Heff.
  cbv zeta in Heff.
  destruct (open_error env) as [e|].
  { destruct Heff as (_ & Hfs & _). by rewrite Hfs in Hdiff. }
  split; [done|].
  destruct (decide (p = batch_path_of env idb)) as [|Hne]; [done|].
  destruct (write_failure env _) as [[n e]|].
  - destruct Heff as (_ & Hfs & _). rewrite Hfs in Hdiff.
    by rewrite lookup_insert_ne in Hdiff.
  - destruct Heff as (Hfs & _). rewrite Hfs in Hdiff.
    by rewrite lookup_insert_ne in Hdiff.
Qed.

Lemma only_the_script_is_written_witness :
  exists input_path idb_path,
    reaches_generation Sample.env Sample.st input_path idb_path
    /\ open_error Sample.env = None
    /\ "/tmp/sample_reload.bat" = batch_path_of Sample.env idb_path.
Proof.
  apply (only_the_script_is_written Sample.env Sample.st "/tmp/sample_reload.bat").
  vm_compute. discriminate.
Defined.

Lemma full_script_expected (env : Env) (st : State) (input_path idb_path : string) :
  Forall (expected_line st (stem env idb_path) (stem env input_path)
            (sys_executable env) input_path (batch_path_of env idb_path))
    (full_script env st input_path idb_path).
Proof.
  unfold full_script, script_lines, expected_line.
  repeat apply Forall_app_2.
  - repeat constructor; tauto.
  - apply Forall_forall. intros l Hl. apply list_elem_of_In, in_map_iff in Hl.
    destruct Hl as (p & <- & Hp). apply List.filter_In in Hp as [Hp Hex].
    apply in_map_iff in Hp as (ext & <- & Hext).
    right; right; left. by exists ext.
  - destruct (String.eqb_spec (stem env idb_path) (stem env input_path))
      as [Heq|Hne]; [constructor|]. cbn [negb].
    apply Forall_forall. intros l Hl. apply list_elem_of_In, in_map_iff in Hl.
    destruct Hl as (ext & <- & Hext).
    right; right; right; left. by exists ext.
  - repeat constructor; tauto.
Qed.

(** X8: a script written without error holds nothing but lines of six
    kinds: the header, the delay, the relaunch, the self-deletion, the
    deletion of a database component of the database's stem that exists
    on disk, and, when the stems differ, the deletion of a database
    component of the binary's stem.  No other path is named in a deletion. *)
Theorem script_holds_expected_lines (env : Env) (st : State)
    (input_path idb_path : string) :
  reaches_generation env st input_path idb_path ->
  open_error env = None ->
  write_failure env (full_script env st input_path idb_path) = None ->
  exists script,
    fs (final env st) !! batch_path_of env idb_path = Some script
    /\ Forall (expected_line st (stem env idb_path) (stem env input_path)
                 (sys_executable env) input_path (batch_path_of env idb_path))
         script.
Proof.
  intros Hreach Hopen Hw.
  pose proof (generation_effects env st input_path idb_path Hreach) as Heff.
  cbv zeta in Heff. rewrite Hopen, Hw in Heff.
  destruct Heff as (-> & _). eexists. split; [apply lookup_insert_eq|].
  apply full_script_expected.
Qed.

Lemma script_holds_expected_lines_witness :
  exists script,
    fs (final Sample.env_elsewhere Sample.st)
      !! batch_path_of Sample.env_elsewhere "/work/sample.i64" = Some script
    /\ Forall (expected_line Sample.st
                 (stem Sample.env_elsewhere "/work/sample.i64")
                 (stem Sample.env_elsewhere Sample.bin)
                 (sys_executable Sample.env_elsewhere) Sample.bin
                 (batch_path_of Sample.env_elsewhere "/work/sample.i64"))
         script.
Proof.
  apply (script_holds_expected_lines Sample.env_elsewhere Sample.st
           Sample.bin "/work/sample.i64").
  - sample_reaches.
  - reflexivity.
  - reflexivity.
Defined.

(** ** Stems and extensions *)

Lemma string_app_nil_r (s : string) : s +:+ EmptyString = s.
Proof.
  induction s as [|c s IH]; [done|].
  change (String c (s +:+ EmptyString) = String c s). by f_equal.
Qed.

Lemma substring_whole (p : string) : String.substring 0 (String.length p) p = p.
Proof. induction p as [|c p IH]; simpl; [done|]. by f_equal. Qed.

Lemma substring_split (n : nat) (p : string) :
  String.substring 0 n p +:+ String.substring n (String.length p - n) p = p.
Proof.
  revert n. induction p as [|c p IH]; intros [|n]; simpl.
  - done.
  - done.
  - by rewrite substring_whole.
  - change (String c (String.substring 0 n p
                        +:+ String.substring n (String.length p - n) p)
            = String c p).
    by rewrite IH.
Qed.

(** X9: [os.path.splitext] only cuts: on either platform the root followed
    by the extension is the path again, so each stem used by [activate] is
    a prefix of its path, and the script lands next to the database. *)
Theorem splitext_round_trip (os p : string) :
  fst (Path.splitext os p) +:+ snd (Path.splitext os p) = p.
Proof.
  unfold Path.splitext, Path._splitext.
  destruct (String.eqb os "nt");
    match goal with |- context [if ?c then _ else _] => destruct c end;
    cbn [fst snd]; first [apply substring_split | apply string_app_nil_r].
Qed.

(** X10: when the analysed file's own extension is one of the six database
    extensions, a script written without error holds a command deleting
    the analysed file itself, and the command that relaunches the host on
    that file. *)
Theorem input_named_like_component_is_deleted (env : Env) (st : State)
    (input_path idb_path : string) :
  reaches_generation env st input_path idb_path ->
  open_error env = None ->
  write_failure env (full_script env st input_path idb_path) = None ->
  In (snd (Path.splitext (os_name env) input_path)) extensions ->
  exists script,
    fs (final env st) !! batch_path_of env idb_path = Some script
    /\ In (del_line input_path) script
    /\ In (start_line (sys_executable env) input_path) script.
Proof.
  intros Hreach Hopen Hw Hext.
  pose proof (generation_effects env st input_path idb_path Hreach) as Heff.
  cbv zeta in Heff. rewrite Hopen, Hw in Heff. destruct Heff as (-> & _).
  eexists. split; [apply lookup_insert_eq|].
  assert (Hsplit : stem env input_path
                   +:+ snd (Path.splitext (os_name env) input_path) = input_path)
    by apply splitext_round_trip.
  unfold full_script, script_lines. split.
  - apply in_or_app; right.
    destruct (String.eqb_spec (stem env idb_path) (stem env input_path))
      as [Heq|Hne]; cbn [negb].
    + apply in_or_app; left. apply in_map_iff. exists input_path.
      split; [done|]. apply List.filter_In. split; [|apply Hreach].
      apply in_map_iff. eexists. split; [|exact Hext]. by rewrite Heq.
    + apply in_or_app; right. apply in_or_app; left.
      apply in_map_iff. eexists. split; [|exact Hext]. by rewrite Hsplit.
  - do 3 (apply in_or_app; right). by left.
Qed.

Lemma input_named_like_component_is_deleted_witness :
  exists script,
    fs (final Scenario.env_nam_input Scenario.st_nam_input)
      !! batch_path_of Scenario.env_nam_input "/work/image.i64" = Some script
    /\ In (del_line "/fw/image.nam") script
    /\ In (start_line (sys_executable Scenario.env_nam_input) "/fw/image.nam") script.
Proof.
  apply (input_named_like_component_is_deleted Scenario.env_nam_input
           Scenario.st_nam_input "/fw/image.nam" "/work/image.i64").
  - sample_reaches.
  - reflexivity.
  - reflexivity.
  - vm_compute. tauto.
Defined.

(** X11: when the database file exists on disk and its extension is one of
    the six (an [.i64] database, say), a script written without error holds
    the command deleting the database file itself. *)
Theorem existing_database_is_deleted (env : Env) (st : State)
    (input_path idb_path : string) :
  reaches_generation env st input_path idb_path ->
  open_error env = None ->
  write_failure env (full_script env st input_path idb_path) = None ->
  In (snd (Path.splitext (os_name env) idb_path)) extensions ->
  file_exists st idb_path = true ->
  exists script,
    fs (final env st) !! batch_path_of env idb_path = Some script
    /\ In (del_line idb_path) script.
Proof.
  intros Hreach Hopen Hw Hext Hex.
  pose proof (generation_effects env st input_path idb_path Hreach) as Heff.
  cbv zeta in Heff. rewrite Hopen, Hw in Heff. destruct Heff as (-> & _).
  eexists. split; [apply lookup_insert_eq|].
  assert (Hsplit : stem env idb_path
                   +:+ snd (Path.splitext (os_name env) idb_path) = idb_path)
    by apply splitext_round_trip.
  unfold full_script, script_lines.
  apply in_or_app; right. apply in_or_app; left.
  apply in_map_iff. exists idb_path. split; [done|].
  apply List.filter_In. split; [|done].
  apply in_map_iff. eexists. split; [|exact Hext]. done.
Qed.

Lemma existing_database_is_deleted_witness :
  exists script,
    fs (final Sample.env Sample.st) !! batch_path_of Sample.env Sample.idb
      = Some script
    /\ In (del_line Sample.idb) script.
Proof.
  apply (existing_database_is_deleted Sample.env Sample.st Sample.bin Sample.idb).
  - sample_reaches.
  - reflexivity.
  - reflexivity.
  - vm_compute. tauto.
  - vm_compute. reflexivity.
Defined.

(** X12: for paths without a backslash the platform decides nothing but
    the creation flags: under any other [os.name] an activation that
    reaches script generation has the same result, leaves the same files,
    console and warnings, and spawns the same command. *)
Theorem platform_decides_only_flags (env : Env) (st : State)
    (input_path idb_path name : string) :
  reaches_generation env st input_path idb_path ->
  lacks "\"%char input_path = true ->
  lacks "\"%char idb_path = true ->
  outcome (with_os_name name env) st = outcome env st
  /\ fs (final (with_os_name name env) st) = fs (final env st)
  /\ console (final (with_os_name name env) st) = console (final env st)
  /\ warnings (final (with_os_name name env) st) = warnings (final env st)
  /\ map sp_args (spawned (final (with_os_name name env) st))
     = map sp_args (spawned (final env st)).
Proof.
  intros Hreach Hinp Hidb.
  assert (Hs : stem (with_os_name name env) idb_path = stem env idb_path).
  { unfold stem. f_equal. by apply splitext_platform_agree. }
  assert (Ht : stem (with_os_name name env) input_path = stem env input_path).
  { unfold stem. f_equal. by apply splitext_platform_agree. }
  assert (Hreach' : reaches_generation (with_os_name name env) st
                      input_path idb_path) by exact Hreach.
  unfold outcome, final.
  rewrite (activate_generation _ st input_path idb_path Hreach').
  rewrite (activate_generation _ st input_path idb_path Hreach).
  unfold generation_outcome, full_script, batch_spawn, batch_path_of,
    write_failure.
  rewrite Hs, Ht.
  cbn [with_os_name open_error write_error popen_error sys_executable].
  destruct (open_error env); [done|].
  destruct (write_error env) as [[n e]|].
  - destruct (bool_decide _); [done|].
    destruct (popen_error env); [done|].
    cbn [fst snd fs console warnings spawned log spawn].
    by rewrite !map_app.
  - destruct (popen_error env); [done|].
    cbn [fst snd fs console warnings spawned log spawn].
    by rewrite !map_app.
Qed.

Lemma platform_decides_only_flags_witness :
  outcome (with_os_name "nt" Sample.env) Sample.st = outcome Sample.env Sample.st
  /\ fs (final (with_os_name "nt" Sample.env) Sample.st)
     = fs (final Sample.env Sample.st)
  /\ console (final (with_os_name "nt" Sample.env) Sample.st)
     = console (final Sample.env Sample.st)
  /\ warnings (final (with_os_name "nt" Sample.env) Sample.st)
     = warnings (final Sample.env Sample.st)
  /\ map sp_args (spawned (final (with_os_name "nt" Sample.env) Sample.st))
     = map sp_args (spawned (final Sample.env Sample.st)).
Proof.
  apply (platform_decides_only_flags Sample.env Sample.st Sample.bin Sample.idb "nt").
  - sample_reaches.
  - reflexivity.
  - reflexivity.
Defined.

(** ** Registration of the action *)

(** X13: on a host where the name [reload_binary:reload] is free, [init]
    returns [PLUGIN_KEEP], registers under that name an action handled by
    [ReloadBinaryHandler] with the hotkey Ctrl+Shift+R, and leaves every
    other action as it was. *)
Theorem init_registers_action (h : Plugin.Host) :
  Plugin.actions h !! "reload_binary:reload" = None ->
  fst (Plugin.init h) = Plugin.PLUGIN_KEEP
  /\ (exists desc,
        Plugin.actions (snd (Plugin.init h)) !! "reload_binary:reload" = Some desc
        /\ Plugin.name desc = "reload_binary:reload"
        /\ Plugin.handler desc = Plugin.ReloadBinaryHandler
        /\ Plugin.shortcut desc = "Ctrl+Shift+R")
  /\ (forall n, n <> "reload_binary:reload" ->
        Plugin.actions (snd (Plugin.init h)) !! n = Plugin.actions h !! n).
Proof.
  intros Hfree. unfold Plugin.init, Plugin.register_action.
  cbn [Plugin.name]. rewrite Hfree. cbn.
  split; [done|]. split.
  - eexists. split; [apply lookup_insert_eq|done].
  - intros n Hn. by apply lookup_insert_ne.
Qed.

Lemma init_registers_action_witness :
  fst (Plugin.init Scenario.host) = Plugin.PLUGIN_KEEP
  /\ (exists desc,
        Plugin.actions (snd (Plugin.init Scenario.host)) !! "reload_binary:reload"
          = Some desc
        /\ Plugin.name desc = "reload_binary:reload"
        /\ Plugin.handler desc = Plugin.ReloadBinaryHandler
        /\ Plugin.shortcut desc = "Ctrl+Shift+R")
  /\ (forall n, n <> "reload_binary:reload" ->
        Plugin.actions (snd (Plugin.init Scenario.host)) !! n
        = Plugin.actions Scenario.host !! n).
Proof.
  apply (init_registers_action Scenario.host). vm_compute. reflexivity.
Defined.

(** X14: on a host where the name is taken, [init] returns [PLUGIN_SKIP],
    prints "[Reload Plugin] Failed to register action" and leaves the
    registry as it was. *)
Theorem init_skips_when_taken (h : Plugin.Host) :
  is_Some (Plugin.actions h !! "reload_binary:reload") ->
  fst (Plugin.init h) = Plugin.PLUGIN_SKIP
  /\ Plugin.actions (snd (Plugin.init h)) = Plugin.actions h
  /\ Plugin.output (snd (Plugin.init h))
     = Plugin.output h ++ ["[Reload Plugin] Failed to register action"].
Proof.
  intros [desc Htaken]. unfold Plugin.init, Plugin.register_action.
  cbn [Plugin.name]. rewrite Htaken. done.
Qed.

Lemma init_skips_when_taken_witness :
  fst (Plugin.init (snd (Plugin.init Scenario.host))) = Plugin.PLUGIN_SKIP
  /\ Plugin.actions (snd (Plugin.init (snd (Plugin.init Scenario.host))))
     = Plugin.actions (snd (Plugin.init Scenario.host))
  /\ Plugin.output (snd (Plugin.init (snd (Plugin.init Scenario.host))))
     = Plugin.output (snd (Plugin.init Scenario.host))
       ++ ["[Reload Plugin] Failed to register action"].
Proof.
  apply (init_skips_when_taken (snd (Plugin.init Scenario.host))).
  vm_compute. eauto.
Defined.

(** X15: [term] undoes [init]: it unregisters the very name [init]
    registered, so after [init] and [term] on a host where the name was
    free the registry is what it was before. *)
Theorem term_undoes_init (h : Plugin.Host) :
  Plugin.actions h !! "reload_binary:reload" = None ->
  Plugin.actions (Plugin.term (snd (Plugin.init h))) = Plugin.actions h.
Proof.
  intros Hfree. unfold Plugin.init, Plugin.register_action, Plugin.term,
    Plugin.unregister_action.
  cbn [Plugin.name]. rewrite Hfree. cbn.
  rewrite delete_insert_eq. by apply delete_id.
Qed.

Lemma term_undoes_init_witness :
  Plugin.actions (Plugin.term (snd (Plugin.init Scenario.host)))
  = Plugin.actions Scenario.host.
Proof.
  apply (term_undoes_init Scenario.host). vm_compute. reflexivity.
Defined.

(** X16: after [term] the name is free again, whatever the host held, so
    the [init] that follows succeeds: unloading and reloading the plugin
    returns [PLUGIN_KEEP]. *)
Theorem init_after_term_succeeds (h : Plugin.Host) :
  fst (Plugin.init (Plugin.term h)) = Plugin.PLUGIN_KEEP.
Proof.
  unfold Plugin.init, Plugin.register_action, Plugin.term,
    Plugin.unregister_action. cbn.
  by rewrite lookup_delete_eq.
Qed.

(** ** Errors of the inner [try] *)

(** X17: whichever of [open], [f.write] and [subprocess.Popen] raises
    first, the inner [except] reports it the same way: [activate] returns 0
    after the warning "Failed to create reload script: <text>", with the
    console line "[Reload] Error creating reload script: <text>" last.  A
    failed launch is thus reported as a failure to create the script, and
    nothing is spawned. *)
Theorem generation_error_reported (env : Env) (st : State)
    (input_path idb_path e : string) :
  reaches_generation env st input_path idb_path ->
  generation_error env (full_script env st input_path idb_path) = Some e ->
  outcome env st = Val 0
  /\ spawned (final env st) = spawned st
  /\ warnings (final env st)
     = warnings st ++ ["Failed to create reload script: " +:+ e]
  /\ last (console (final env st))
     = Some ("[Reload] Error creating reload script: " +:+ e).
Proof.
  intros Hreach Herr. unfold outcome, final.
  rewrite (activate_generation env st input_path idb_path Hreach).
  unfold generation_outcome. unfold generation_error in Herr.
  destruct (open_error env) as [e1|].
  { injection Herr as ->. cbn. by rewrite last_snoc. }
  destruct (write_failure env _) as [[n e2]|].
  { injection Herr as ->. cbn. by rewrite last_snoc. }
  rewrite Herr. cbn. by rewrite last_snoc.
Qed.

Lemma generation_error_reported_witness :
  outcome Scenario.env_no_shell Sample.st = Val 0
  /\ spawned (final Scenario.env_no_shell Sample.st) = spawned Sample.st
  /\ warnings (final Scenario.env_no_shell Sample.st)
     = warnings Sample.st
       ++ ["Failed to create reload script: " +:+ "cannot start shell"]
  /\ last (console (final Scenario.env_no_shell Sample.st))
     = Some ("[Reload] Error creating reload script: " +:+ "cannot start shell").
Proof.
  apply (generation_error_reported Scenario.env_no_shell Sample.st
           Sample.bin Sample.idb "cannot start shell").
  - sample_reaches.
  - reflexivity.
Defined.
